(** * Bill of material of reinforcement bars: table layout and fit to page

    A shallow embedding of [BillOfMaterial/BOMfunc.py] and
    [BillOfMaterial/BillOfMaterial_SVG.py].

    Conventions of the embedding.
    - The numbers of the layout and FreeCAD quantities are rationals ([Q]);
      tests on them are the boolean tests [Qeq_bool], [Qle_bool].
    - A Python [dict] is an association list in insertion order, a key being
      looked up from the front.
    - A Python exception is a [Raise] result; console output, document
      updates and what happens to files are recorded as a trace of events.
    - The scaling factor is embedded a second time, in [Binary64], over the
      doubles in which Python computes it.
    - Text that the host formats (rounding, unit conversion, [str]) is kept
      symbolic in the type [data]. *)

From Stdlib Require Import ZArith QArith List String Bool Lia Lqa.
From Stdlib Require Import Permutation Sorted SpecFloat.
Import ListNotations.

Local Open Scope Q_scope.

(** ** Exceptions, results and the effect trace *)

Inductive pykey : Type :=
| KStr (s : string)
| KInt (z : Z)
| KNum (q : Q).

Inductive exn : Type :=
| KeyError (key : pykey)
| IndexError
| ValueError
| ZeroDivisionError
| UnboundLocalError (name : string)
| ExpatError.

Inductive result (A : Type) : Type :=
| Ok (a : A)
| Raise (e : exn).

Arguments Ok {A} a.
Arguments Raise {A} e.

Definition rbind {A B : Type} (r : result A) (f : A -> result B) : result B :=
  match r with
  | Ok a => f a
  | Raise e => Raise e
  end.

Definition Qltb (x y : Q) : bool := negb (Qle_bool y x).

(** The line feed that ends a console message. *)
Definition nl : string := String (Ascii.ascii_of_nat 10) EmptyString.

(** Monadic map over a list, left to right. *)
Fixpoint mapM {A B : Type} (f : A -> result B) (l : list A)
  : result (list B) :=
  match l with
  | [] => Ok []
  | x :: tl =>
      rbind (f x) (fun y => rbind (mapM f tl) (fun ys => Ok (y :: ys)))
  end.

(** [enumerate(l)] *)
Definition enumerate {A : Type} (l : list A) : list (nat * A) :=
  combine (seq 0 (List.length l)) l.

(** [range(n)] *)
Definition range (n : Z) : list Z :=
  map Z.of_nat (seq 0 (Z.to_nat n)).

(** [len(l)] *)
Definition len {A : Type} (l : list A) : Z := Z.of_nat (List.length l).

(** [a / b] of Python on numbers. *)
Definition truediv (a b : Q) : result Q :=
  if Qeq_bool b 0 then Raise ZeroDivisionError else Ok (a / b).

(** [min(a, b)] of Python: the first argument unless the second is smaller. *)
Definition py_min (a b : Q) : Q := if Qltb b a then b else a.

(** Truth value of an optional number: [None] and [0] are false. *)
Definition truthy (x : option Q) : bool :=
  match x with
  | Some q => negb (Qeq_bool q 0)
  | None => false
  end.

(** [sum] of a loop [acc += x] starting at 0. *)
Definition Qsum (l : list Q) : Q := fold_left Qplus l 0.

(** [l[::2]] *)
Fixpoint every_other {A : Type} (l : list A) : list A :=
  match l with
  | [] => []
  | [x] => [x]
  | x :: _ :: tl => x :: every_other tl
  end.

(** Stable insertion sort, standing for [list.sort()] and [sorted]. *)
Section Sorting.
Context {A : Type} (leb : A -> A -> bool).

Fixpoint insert_sorted (x : A) (l : list A) : list A :=
  match l with
  | [] => [x]
  | y :: tl => if leb y x then y :: insert_sorted x tl else x :: y :: tl
  end.

Definition sort_by (l : list A) : list A :=
  fold_left (fun acc x => insert_sorted x acc) l [].
End Sorting.

(** ** Dictionaries *)

Section Dict.
Context {K V : Type} (eqb : K -> K -> bool).

Definition dict : Type := list (K * V).

Fixpoint dict_get (d : dict) (k : K) : option V :=
  match d with
  | [] => None
  | (k', v) :: tl => if eqb k k' then Some v else dict_get tl k
  end.

(** [k in d] *)
Definition dict_in (d : dict) (k : K) : bool :=
  match dict_get d k with
  | Some _ => true
  | None => false
  end.

(** [d[k] = v] *)
Fixpoint dict_set (d : dict) (k : K) (v : V) : dict :=
  match d with
  | [] => [(k, v)]
  | (k', v') :: tl =>
      if eqb k k' then (k', v) :: tl else (k', v') :: dict_set tl k v
  end.

Definition keys (d : dict) : list K := map fst d.
End Dict.

Arguments dict K V : clear implicits.

Definition sdict (V : Type) : Type := dict string V.
Definition sget {V : Type} (d : sdict V) (k : string) : option V :=
  dict_get String.eqb d k.
Definition sin {V : Type} (d : sdict V) (k : string) : bool :=
  dict_in String.eqb d k.

(** ** BOMfunc.py *)

Module BOMfunc.

(** An edge of [base.Shape.Edges]: its length, and whether it is a
    straight segment (as opposed to a fillet arc). *)
Record Edge : Type := {
  edge_Length : Q;
  straight : bool
}.

(** The base object of a rebar.  An attribute that may be missing is an
    [option]. *)
Record BaseT : Type := {
  base_Length : option Q;      (* hasattr(base, "Length") *)
  FilletRadius : option Q;     (* hasattr(base, "FilletRadius") *)
  Closed : bool;
  Edges : list Edge;           (* base.Shape.Edges *)
  isSketch : bool;             (* base.isDerivedFrom("Sketcher::SketchObject") *)
  Geometry : list Q            (* geo.length() for geo in base.Geometry *)
}.

Record BaseRebarT : Type := {
  MarkNumber : option Z;       (* hasattr(item.BaseRebar, "MarkNumber") *)
  Diameter : Q;
  Length : Q;
  Base : BaseT
}.

(** An object of the document. *)
Record DocObject : Type := {
  obj_BaseRebar : option BaseRebarT;
  obj_IfcType : option string;
  obj_Amount : Z
}.

(** An object that passed the test of [getMarkReinforcementsDict]. *)
Record Reinforcement : Type := {
  BaseRebar : BaseRebarT;
  Amount : Z
}.

Definition mark_dict : Type := dict Z (list Reinforcement).

(** [if mark_number not in d: d[mark_number] = []] followed by
    [d[mark_number].append(item)] *)
Fixpoint dict_append (d : mark_dict) (k : Z) (item : Reinforcement)
  : mark_dict :=
  match d with
  | [] => [(k, [item])]
  | (k', l) :: tl =>
      if Z.eqb k k' then (k', l ++ [item]) :: tl
      else (k', l) :: dict_append tl k item
  end.

Definition getMarkReinforcementsDict (objects_list : list DocObject)
  : mark_dict :=
  let default_mark_number := 0%Z in
  fold_left
    (fun mark_reinforcements_dict item =>
       match obj_BaseRebar item, obj_IfcType item with
       | Some base_rebar, Some ifc =>
           if String.eqb ifc "Reinforcing Bar" then
             let mark_number :=
               match MarkNumber base_rebar with
               | None => default_mark_number
               | Some m => m
               end in
             dict_append mark_reinforcements_dict mark_number
               {| BaseRebar := base_rebar; Amount := obj_Amount item |}
           else mark_reinforcements_dict
       | _, _ => mark_reinforcements_dict
       end)
    objects_list [].

(** [l[0]] *)
Definition first {A : Type} (l : list A) : result A :=
  match l with
  | [] => Raise IndexError
  | x :: _ => Ok x
  end.

(** The loop of [getUniqueDiameterList], before the final sort. *)
Fixpoint unique_diameters (items : list (Z * list Reinforcement))
  (diameter_list : list Q) : result (list Q) :=
  match items with
  | [] => Ok diameter_list
  | (_, reinforcement_list) :: tl =>
      rbind (first reinforcement_list) (fun r =>
        let diameter := Diameter (BaseRebar r) in
        if existsb (Qeq_bool diameter) diameter_list
        then unique_diameters tl diameter_list
        else unique_diameters tl (diameter_list ++ [diameter]))
  end.

Definition getUniqueDiameterList (mark_reinforcements_dict : mark_dict)
  : result (list Q) :=
  rbind (unique_diameters mark_reinforcements_dict [])
    (fun diameter_list => Ok (sort_by Qle_bool diameter_list)).

(** What [getRebarSharpEdgedLength] returns, with the text it prints on
    the error console. *)
Definition getRebarSharpEdgedLength (rebar : BaseRebarT)
  : Q * list string :=
  let base := Base rebar in
  match base_Length base with
  | Some base_length =>
      match FilletRadius base with
      | None => (base_length, [])
      | Some fillet_radius =>
          if Qeq_bool fillet_radius 0 then (base_length, [])
          else
            let edges := Edges base in
            let corners :=
              if Closed base
              then inject_Z (Z.of_nat (List.length edges)) / 2
              else (inject_Z (Z.of_nat (List.length edges)) - 1) / 2 in
            let extension_length := 2 * corners * fillet_radius in
            let rebar_straight_length :=
              fold_left (fun acc edge => acc + edge_Length edge)
                (every_other edges) 0 in
            (rebar_straight_length + extension_length, [])
      end
  | None =>
      if isSketch base then
        (fold_left (fun acc geo => acc + geo) (Geometry base) 0, [])
      else
        (0, [("Cannot calculate rebar length from its base object"
              ++ nl)%string])
  end.

(** The flag [scale] of [getBOMScalingFactor], and the factor, over the
    rationals of the layout: the values the function has when none of its
    operations rounds.  They place the table on the page in
    [makeBillOfMaterialSVG]; what the function computes on floats, to the
    last bit, is [Binary64.getBOMScalingFactor] below. *)
Definition scale_flag
  (bom_width bom_height bom_left_offset bom_top_offset
   template_width template_height
   bom_min_right_offset bom_min_bottom_offset : Q)
  (bom_table_max_width bom_table_max_height : option Q) : bool :=
  let scale := false in
  let scale :=
    if Qltb (template_width - bom_width - bom_left_offset
             - bom_min_right_offset) 0
       || Qltb (template_height - bom_height - bom_top_offset
                - bom_min_bottom_offset) 0
    then true else scale in
  let scale :=
    match bom_table_max_width with
    | Some max_width =>
        if truthy bom_table_max_width then
          if Qltb max_width bom_width then true else scale
        else scale
    | None => scale
    end in
  let scale :=
    match bom_table_max_height with
    | Some max_height =>
        if truthy bom_table_max_height then
          if Qltb max_height bom_height then true else scale
        else scale
    | None => scale
    end in
  scale.

Definition getBOMScalingFactor
  (bom_width bom_height bom_left_offset bom_top_offset
   template_width template_height
   bom_min_right_offset bom_min_bottom_offset : Q)
  (bom_table_max_width bom_table_max_height : option Q) : result Q :=
  if negb (scale_flag bom_width bom_height bom_left_offset bom_top_offset
             template_width template_height
             bom_min_right_offset bom_min_bottom_offset
             bom_table_max_width bom_table_max_height)
  then Ok 1
  else
    rbind (truediv (template_width - bom_left_offset
                    - bom_min_right_offset) bom_width)
      (fun h_scaling_factor =>
    rbind (match bom_table_max_width with
           | Some max_width =>
               if truthy bom_table_max_width then
                 rbind (truediv max_width bom_width)
                   (fun c => Ok (py_min h_scaling_factor c))
               else Ok h_scaling_factor
           | None => Ok h_scaling_factor
           end)
      (fun h_scaling_factor =>
    rbind (truediv (template_height - bom_top_offset
                    - bom_min_bottom_offset) bom_height)
      (fun v_scaling_factor =>
    rbind (match bom_table_max_height with
           | Some max_height =>
               if truthy bom_table_max_height then
                 rbind (truediv max_height bom_height)
                   (fun c => Ok (py_min v_scaling_factor c))
               else Ok v_scaling_factor
           | None => Ok v_scaling_factor
           end)
      (fun v_scaling_factor =>
    Ok (py_min h_scaling_factor v_scaling_factor))))).

End BOMfunc.

(** ** [getBOMScalingFactor] in double precision

    Python computes the factor on floats: IEEE 754 doubles, every operation
    rounded to nearest, ties to even.  [SpecFloat] specifies them, here with
    precision 53 and exponent bound 1024. *)

Module Binary64.

Definition double : Type := spec_float.

Definition prec : Z := 53.
Definition emax : Z := 1024.

Definition zero : double := S754_zero false.

(** The integer [n] as a double: an integer argument of the function
    stands for the double it converts to. *)
Definition of_Z (n : Z) : double := binary_normalize prec emax n 0 false.

Definition one : double := of_Z 1.

(** The double [n / d] of two integers, as Python evaluates it: [ratio 81
    10] is the double written [8.1]. *)
Definition ratio (n d : Z) : double := SFdiv prec emax (of_Z n) (of_Z d).

Definition sub (x y : double) : double := SFsub prec emax x y.

Definition ltb (x y : double) : bool := SFltb x y.

Definition leb (x y : double) : bool := SFleb x y.

(** [x == 0]: true of both zeros, false of a NaN. *)
Definition is_zero (x : double) : bool := SFeqb x zero.

(** [a / b] *)
Definition truediv (a b : double) : result double :=
  if is_zero b then Raise ZeroDivisionError
  else Ok (SFdiv prec emax a b).

(** [min(a, b)]: the first argument unless the second is smaller. *)
Definition py_min (a b : double) : double := if ltb b a then b else a.

(** Truth value of an optional number: [None] and zero are false. *)
Definition truthy (x : option double) : bool :=
  match x with
  | Some q => negb (is_zero q)
  | None => false
  end.

(** The flag [scale]. *)
Definition scale_flag
  (bom_width bom_height bom_left_offset bom_top_offset
   template_width template_height
   bom_min_right_offset bom_min_bottom_offset : double)
  (bom_table_max_width bom_table_max_height : option double) : bool :=
  let scale := false in
  let scale :=
    if ltb (sub (sub (sub template_width bom_width) bom_left_offset)
              bom_min_right_offset) zero
       || ltb (sub (sub (sub template_height bom_height) bom_top_offset)
                 bom_min_bottom_offset) zero
    then true else scale in
  let scale :=
    match bom_table_max_width with
    | Some max_width =>
        if truthy bom_table_max_width then
          if ltb max_width bom_width then true else scale
        else scale
    | None => scale
    end in
  let scale :=
    match bom_table_max_height with
    | Some max_height =>
        if truthy bom_table_max_height then
          if ltb max_height bom_height then true else scale
        else scale
    | None => scale
    end in
  scale.

(** The factor; the integer 1 that the function returns when nothing
    triggers scaling is the double it equals. *)
Definition getBOMScalingFactor
  (bom_width bom_height bom_left_offset bom_top_offset
   template_width template_height
   bom_min_right_offset bom_min_bottom_offset : double)
  (bom_table_max_width bom_table_max_height : option double)
  : result double :=
  if negb (scale_flag bom_width bom_height bom_left_offset bom_top_offset
             template_width template_height
             bom_min_right_offset bom_min_bottom_offset
             bom_table_max_width bom_table_max_height)
  then Ok one
  else
    rbind (truediv (sub (sub template_width bom_left_offset)
                      bom_min_right_offset) bom_width)
      (fun h_scaling_factor =>
    rbind (match bom_table_max_width with
           | Some max_width =>
               if truthy bom_table_max_width then
                 rbind (truediv max_width bom_width)
                   (fun c => Ok (py_min h_scaling_factor c))
               else Ok h_scaling_factor
           | None => Ok h_scaling_factor
           end)
      (fun h_scaling_factor =>
    rbind (truediv (sub (sub template_height bom_top_offset)
                      bom_min_bottom_offset) bom_height)
      (fun v_scaling_factor =>
    rbind (match bom_table_max_height with
           | Some max_height =>
               if truthy bom_table_max_height then
                 rbind (truediv max_height bom_height)
                   (fun c => Ok (py_min v_scaling_factor c))
               else Ok v_scaling_factor
           | None => Ok v_scaling_factor
           end)
      (fun v_scaling_factor =>
    Ok (py_min h_scaling_factor v_scaling_factor))))).

End Binary64.

(** ** BillOfMaterial_SVG.py *)

Module BillOfMaterial_SVG.
Import BOMfunc.

(** [column_headers]: key -> (label, sequence number). *)
Definition headers : Type := sdict (string * Z).
(** [column_units]: key -> unit. *)
Definition units : Type := sdict string.
(** Dictionaries keyed by a diameter value. *)
Definition qdict : Type := dict Q Q.
Definition qget (d : qdict) (k : Q) : option Q := dict_get Qeq_bool d k.

Definition getColumnOffset (column_headers : headers)
  (diameter_list : list Q) (column_header : string) (column_width : Q)
  : result Q :=
  match sget column_headers column_header with
  | None => Raise (KeyError (KStr column_header))
  | Some (_, seq) =>
      let seq :=
        match sget column_headers "RebarsTotalLength" with
        | Some (_, total_seq) =>
            if (total_seq <? seq)%Z then
              if negb (len diameter_list =? 0)%Z
              then (seq + (len diameter_list - 1))%Z
              else seq
            else seq
        | None => seq
        end in
      let offset := column_width * inject_Z (seq - 1) in
      Ok offset
  end.

(** Text of a cell, before the host turns it into a string. *)
Inductive data : Type :=
| Str (s : string)
| Int (z : Z)
  (* str(round(q, precision)) *)
| Rounded (q : Q) (precision : Z)
  (* str(round(q.getValueAs(as_unit).Value, precision))
       .rstrip("0").rstrip(".") + " " + suffix *)
| Formatted (q : Q) (as_unit : string) (precision : Z) (suffix : string)
  (* "#" + str(round(dia.Value, precision)).rstrip("0").rstrip(".") *)
| DiaHeader (dia : Q) (precision : Z).

Inductive ident : Type :=
| Id (s : string)
| RowId (n : Z).               (* "BOM_table_row" + str(n) *)

#[warnings="-register-all"]
Inductive svg : Type :=
| rect (x y width height : Q)
| text (d : data) (x y : Q) (font_family : string) (font_size : Q)
    (text_anchor dominant_baseline : string)
| g (id : ident) (children : list svg).

Definition getSVGRectangle (x_offset y_offset width height : Q) : svg :=
  rect x_offset y_offset width height.

Definition getSVGTextElement (d : data) (x_offset y_offset : Q)
  (font_family : string) (font_size : Q)
  (text_anchor dominant_baseline : string) : svg :=
  text d x_offset y_offset font_family font_size text_anchor
    dominant_baseline.

Definition getSVGDataCell (d : data) (x_offset y_offset width height : Q)
  (font_family : string) (font_size : Q) : svg :=
  g (Id "bom_table_cell")
    [ getSVGRectangle x_offset y_offset width height;
      getSVGTextElement d (x_offset + width / 2) (y_offset + height / 2)
        font_family font_size "middle" "central" ].

(** Delete hidden headers. *)
Definition delete_hidden (column_headers : headers) : headers :=
  filter (fun kv => negb (snd (snd kv) =? 0)%Z) column_headers.

(** [sorted(column_headers, key=lambda x: column_headers[x][1])], as the
    entries of the dictionary. *)
Definition sorted_headers (column_headers : headers)
  : list (string * (string * Z)) :=
  sort_by (fun a b => (snd (snd a) <=? snd (snd b))%Z) column_headers.

Section Headers.
Variables (diameter_list : list Q) (dia_precision : Z)
  (y_offset column_width row_height : Q)
  (font_family : string) (font_size : Q).

(** The inner loop [for dia in diameter_list] of the header. *)
Definition dia_header_step (st : list svg * Q) (dia : Q) : list svg * Q :=
  let (cells, column_offset) := st in
  (cells ++ [getSVGDataCell (DiaHeader dia dia_precision) column_offset
               (y_offset + row_height) column_width row_height
               font_family font_size],
   column_offset + column_width).

(** One turn of the loop over the sorted headers. *)
Definition header_step (height : Q) (st : list svg * Q)
  (entry : string * (string * Z)) : list svg * Q :=
  let (children, column_offset) := st in
  let column_header := fst entry in
  let label := fst (snd entry) in
  if negb (String.eqb column_header "RebarsTotalLength") then
    (children ++ [getSVGDataCell (Str label) column_offset y_offset
                    column_width height font_family font_size],
     column_offset + column_width)
  else
    let head :=
      getSVGDataCell (Str label) column_offset y_offset
        (column_width * inject_Z (len diameter_list)) row_height
        font_family font_size in
    let (dia_cells, column_offset') :=
      fold_left dia_header_step diameter_list ([], column_offset) in
    (children ++ [head; g (Id "BOM_headers_diameter") dia_cells],
     column_offset').

Definition getColumnHeadersSVG (column_headers : headers) : svg :=
  let column_headers := delete_hidden column_headers in
  let height :=
    if sin column_headers "RebarsTotalLength"
    then 2 * row_height else row_height in
  g (Id "BOM_column_headers")
    (fst (fold_left (header_step height) (sorted_headers column_headers)
            ([], 0))).
End Headers.

(** What the function reads from its host: the preferences, [config.py],
    the active document, the drawing page made by [makeBOMObject] and the
    file system. *)
Record Host : Type := {
  Decimals : Z;
  DIA_WEIGHT_MAP : qdict;
  objects : list DocObject;
  template_size : string -> Q * Q;      (* Template.Width, Template.Height *)
  read_file : string -> option string;  (* [None]: open or read raises *)
  open_for_writing : string -> bool;    (* open(path, "w") succeeds *)
  write_succeeds : string -> bool;      (* handle.write(...) succeeds *)
  str_of_file : string -> string        (* str(handle) of the open file *)
}.

(** The display of a quantity in a column: converted to the unit of the
    column when [column_units] has one, a unit that the host knows, and
    rounded otherwise. *)
Definition disp (column_units : units) (key : string) (q : Q)
  (precision : Z) : data :=
  match sget column_units key with
  | Some unit => Formatted q unit precision unit
  | None => Rounded q precision
  end.

(** [l.index(x)] *)
Fixpoint index (l : list Q) (x : Q) : result nat :=
  match l with
  | [] => Raise ValueError
  | y :: tl =>
      if Qeq_bool y x then Ok O else rbind (index tl x) (fun i => Ok (S i))
  end.

(** State of the loop over the marks. *)
Record loop_state : Type := {
  rows : list svg;
  dia_total_length_dict : qdict;
  y_offset : Q;
  current_row : Z;
  console : list string
}.

Section Table.
Variables (host : Host) (column_headers : headers)
  (column_units : units) (rebar_length_type : string)
  (font_family : string) (font_size : Q)
  (column_width row_height : Q).

Let precision := Decimals host.

Section Rows.
Variables (mark_reinforcements_dict : mark_dict)
  (diameter_list : list Q).

(** A cell of a body row, for a column that is in [column_headers]. *)
Definition body_cell (key : string) (d : data) (y : Q)
  : result (list svg) :=
  if sin column_headers key then
    rbind (getColumnOffset column_headers diameter_list key column_width)
      (fun column_offset =>
         Ok [getSVGDataCell d column_offset y column_width row_height
               font_family font_size])
  else Ok [].

(** [base_rebar_length] and what is printed while computing it. *)
Definition base_rebar_length (base_rebar : BaseRebarT) : Q * list string :=
  if sin column_headers "RebarLength" then
    if String.eqb rebar_length_type "RealLength"
    then (Length base_rebar, [])
    else getRebarSharpEdgedLength base_rebar
  else (0, []).

(** [rebar_total_length] of a mark. *)
Definition rebar_total_length (reinforcements : list Reinforcement)
  (length : Q) : Q :=
  fold_left (fun acc reinforcement =>
               acc + inject_Z (Amount reinforcement) * length)
    reinforcements 0.

(** The cells of the total length column of a row, one per diameter. *)
Definition total_length_cells (base_rebar : BaseRebarT) (total : Q)
  (y : Q) : result (list svg) :=
  if sin column_headers "RebarsTotalLength" then
    let disp_rebar_total_length :=
      disp column_units "RebarsTotalLength" total precision in
    rbind (getColumnOffset column_headers diameter_list
             "RebarsTotalLength" column_width)
      (fun column_offset =>
         mapM (fun dia =>
                 rbind (index diameter_list dia) (fun i =>
                   let x :=
                     column_offset
                     + inject_Z (Z.of_nat i) * column_width in
                   if Qeq_bool dia (Diameter base_rebar) then
                     Ok (getSVGDataCell disp_rebar_total_length x y
                           column_width row_height font_family font_size)
                   else
                     Ok (getSVGRectangle x y column_width row_height)))
           diameter_list)
  else Ok [].

(** The body of the loop [for mark_number in sorted(...)]. *)
Definition makeRow (first_row : Z) (st : loop_state) (mark_number : Z)
  : result loop_state :=
  match dict_get Z.eqb mark_reinforcements_dict mark_number with
  | None => Raise (KeyError (KInt mark_number))
  | Some reinforcements =>
  rbind (first reinforcements) (fun reinforcement0 =>
  let base_rebar := BaseRebar reinforcement0 in
  let y := y_offset st in
  rbind (body_cell "Mark" (Int mark_number) y) (fun mark_cell =>
  let rebars_count :=
    fold_left (fun acc reinforcement => (acc + Amount reinforcement)%Z)
      reinforcements 0%Z in
  rbind (body_cell "RebarsCount" (Int rebars_count) y) (fun count_cell =>
  rbind (body_cell "Diameter"
           (disp column_units "Diameter" (Diameter base_rebar) precision)
           y) (fun diameter_cell =>
  let (length, printed) := base_rebar_length base_rebar in
  rbind (body_cell "RebarLength"
           (disp column_units "RebarLength" length precision) y)
    (fun length_cell =>
  let total := rebar_total_length reinforcements length in
  match qget (dia_total_length_dict st) (Diameter base_rebar) with
  | None => Raise (KeyError (KNum (Diameter base_rebar)))
  | Some accumulated =>
  let totals :=
    dict_set Qeq_bool (dia_total_length_dict st) (Diameter base_rebar)
      (accumulated + total) in
  rbind (total_length_cells base_rebar total y) (fun total_cells =>
  let bom_row_svg :=
    g (RowId (current_row st - first_row + 1))
      (mark_cell ++ count_cell ++ diameter_cell ++ length_cell
       ++ total_cells) in
  Ok {| rows := rows st ++ [bom_row_svg];
        dia_total_length_dict := totals;
        y_offset := y + row_height;
        current_row := current_row st + 1;
        console := console st ++ printed |})
  end)))))
  end.

Fixpoint makeRows (first_row : Z) (marks : list Z) (st : loop_state)
  : result loop_state :=
  match marks with
  | [] => Ok st
  | mark_number :: tl =>
      rbind (makeRow first_row st mark_number) (makeRows first_row tl)
  end.

(** What a row that raises has printed: the message of its length, if
    the row got as far as computing it. *)
Definition printed_in_row (st : loop_state) (mark_number : Z)
  : list string :=
  match dict_get Z.eqb mark_reinforcements_dict mark_number with
  | Some (reinforcement0 :: _) =>
      let y := y_offset st in
      match body_cell "Mark" (Int mark_number) y,
            body_cell "RebarsCount" (Int 0) y,
            body_cell "Diameter" (Int 0) y with
      | Ok _, Ok _, Ok _ =>
          snd (base_rebar_length (BaseRebar reinforcement0))
      | _, _, _ => []
      end
  | _ => []
  end.

(** What the loop over the marks has printed when it ends or raises. *)
Fixpoint printed_by_rows (first_row : Z) (marks : list Z)
  (st : loop_state) : list string :=
  match marks with
  | [] => console st
  | mark_number :: tl =>
      match makeRow first_row st mark_number with
      | Ok st' => printed_by_rows first_row tl st'
      | Raise _ => console st ++ printed_in_row st mark_number
      end
  end.

(** *** The totals below the body *)

Definition RTL : string := "RebarsTotalLength".

(** Weight per length and total weight of a diameter found in
    [DIA_WEIGHT_MAP]. *)
Definition weight_cells (weight total x y : Q) : list svg :=
  let disp_dia_weight :=
    match sget column_units RTL with
    | Some unit => Formatted weight ("kg/" ++ unit) precision unit
    | None => Rounded weight precision
    end in
  [ getSVGDataCell disp_dia_weight x (y + row_height) column_width
      row_height font_family font_size;
    getSVGDataCell (Rounded (weight * total) precision) x
      (y + 2 * row_height) column_width row_height font_family
      font_size ].

(** One turn of [for i, dia in enumerate(diameter_list)] when the total
    length column is not the first column. *)
Definition dia_total_not_first (totals : qdict)
  (rebar_total_length_offset y : Q) (entry : nat * Q)
  : result (list svg) :=
  let (i, dia) := entry in
  match qget totals dia with
  | None => Raise (KeyError (KNum dia))
  | Some total =>
      let x :=
        rebar_total_length_offset
        + inject_Z (Z.of_nat i) * column_width in
      let total_cell :=
        getSVGDataCell (disp column_units RTL total precision) x y
          column_width row_height font_family font_size in
      match qget (DIA_WEIGHT_MAP host) dia with
      | Some weight => Ok (total_cell :: weight_cells weight total x y)
      | None =>
          Ok [ total_cell;
               getSVGRectangle x (y + row_height) column_width row_height;
               getSVGRectangle x (y + 2 * row_height) column_width
                 row_height ]
      end
  end.

(** The same turn when the total length column is the first column. *)
Definition dia_total_first (totals : qdict) (y : Q) (entry : nat * Q)
  : result (list svg) :=
  let (i, dia) := entry in
  match qget totals dia with
  | None => Raise (KeyError (KNum dia))
  | Some total =>
      let x := inject_Z (Z.of_nat i) * column_width in
      let total_cell :=
        getSVGDataCell (disp column_units RTL total precision) x y
          column_width row_height font_family font_size in
      match qget (DIA_WEIGHT_MAP host) dia with
      | Some weight => Ok (total_cell :: weight_cells weight total x y)
      | None => Ok [total_cell]
      end
  end.

(** The three captions; [column_units["RebarsTotalLength"]] is looked up
    without a test. *)
Definition captions (x y width : Q) : result (list svg) :=
  match sget column_units RTL with
  | None => Raise (KeyError (KStr RTL))
  | Some unit =>
      Ok [ getSVGDataCell
             (Str ("Total length in " ++ unit ++ "/Diameter")) x y width
             row_height font_family font_size;
           getSVGDataCell (Str ("Weight in Kg/" ++ unit)) x
             (y + row_height) width row_height font_family font_size;
           getSVGDataCell (Str "Total Weight in Kg/Diameter") x
             (y + 2 * row_height) width row_height font_family
             font_size ]
  end.

(** Empty cells of the columns after the total length column. *)
Definition remaining_columns (total_seq : Z) (y : Q) : list svg :=
  flat_map
    (fun remColumn =>
       let column_offset :=
         inject_Z (total_seq + len diameter_list - 1 + remColumn)
         * column_width in
       map (fun row =>
              getSVGRectangle column_offset
                (y + inject_Z row * row_height) column_width row_height)
         (range 3))
    (range (len column_headers - total_seq)).

(** The group [BOM_data_total]. *)
Definition makeDataTotal (totals : qdict) (y : Q) : result svg :=
  rbind
    (match sget column_headers RTL with
     | None => Ok []
     | Some (_, total_seq) =>
         if negb (total_seq =? 1)%Z then
           rbind (getColumnOffset column_headers diameter_list RTL
                    column_width)
             (fun rebar_total_length_offset =>
           rbind (captions 0 y rebar_total_length_offset)
             (fun caption_cells =>
           rbind (mapM (dia_total_not_first totals
                          rebar_total_length_offset y)
                    (enumerate diameter_list))
             (fun dia_cells =>
           Ok (caption_cells ++ List.concat dia_cells
               ++ remaining_columns total_seq y))))
         else
           rbind (mapM (dia_total_first totals y)
                    (enumerate diameter_list))
             (fun dia_cells =>
           let first_txt_column_offset :=
             inject_Z (len diameter_list) * column_width in
           rbind (captions first_txt_column_offset y
                    (column_width * inject_Z (len column_headers - 1)))
             (fun caption_cells =>
           Ok (List.concat dia_cells ++ caption_cells)))
     end)
    (fun children => Ok (g (Id "BOM_data_total") children)).
End Rows.

(** *** The table *)

Record svg_root : Type := {
  width : Q;                 (* str(bom_width) + "mm" *)
  height : Q;                (* str(bom_height) + "mm" *)
  viewBox : Q * Q * Q * Q;
  root_children : list svg
}.

Record table : Type := {
  root : svg_root;
  bom_table_svg : svg;
  bom_width : Q;
  bom_height : Q;
  totals_of : qdict;
  diameters_of : list Q;
  printed : list string
}.

(** Lines 298 to 817 of [makeBillOfMaterialSVG]: the table, its width and
    its height. *)
Definition makeTable : result table :=
  let mark_reinforcements_dict :=
    getMarkReinforcementsDict (objects host) in
  rbind (getUniqueDiameterList mark_reinforcements_dict)
    (fun diameter_list =>
  let y_offset0 := 0 in
  let column_headers_svg :=
    getColumnHeadersSVG diameter_list precision y_offset0 column_width
      row_height font_family font_size column_headers in
  let dia_total_length_dict0 : qdict :=
    fold_left (fun d dia => dict_set Qeq_bool d dia 0) diameter_list [] in
  let '(first_row, y_offset1) :=
    if sin column_headers RTL
    then (3%Z, y_offset0 + 2 * row_height)
    else (2%Z, y_offset0 + row_height) in
  rbind (makeRows mark_reinforcements_dict diameter_list first_row
           (sort_by Z.leb (keys mark_reinforcements_dict))
           {| rows := [];
              dia_total_length_dict := dia_total_length_dict0;
              y_offset := y_offset1;
              current_row := first_row;
              console := [] |})
    (fun st =>
  let full_width :=
    column_width * inject_Z (len column_headers + len diameter_list - 1) in
  let closing :=
    getSVGRectangle 0 (y_offset st) full_width row_height in
  let y_offset2 := y_offset st + row_height in
  rbind (makeDataTotal diameter_list (dia_total_length_dict st) y_offset2)
    (fun bom_data_total_svg =>
  let y_offset3 := y_offset2 + 3 * row_height in
  let bom_table_svg :=
    g (Id "BOM_table")
      (column_headers_svg :: rows st ++ [closing; bom_data_total_svg]) in
  let bom_height := y_offset3 in
  let bom_width :=
    column_width * inject_Z (len column_headers + len diameter_list - 1) in
  Ok {| root := {| width := bom_width;
                   height := bom_height;
                   viewBox := (0, 0, bom_width, bom_height);
                   root_children := [bom_table_svg] |};
        bom_table_svg := bom_table_svg;
        bom_width := bom_width;
        bom_height := bom_height;
        totals_of := dia_total_length_dict st;
        diameters_of := diameter_list;
        printed := console st |}))).

(** What the table has printed by the time it raises or is complete:
    nothing before the loop over the marks, then the messages of the
    rows. *)
Definition printed_by_table : list string :=
  let mark_reinforcements_dict :=
    getMarkReinforcementsDict (objects host) in
  match getUniqueDiameterList mark_reinforcements_dict with
  | Raise _ => []
  | Ok diameter_list =>
      let '(first_row, y_offset1) :=
        if sin column_headers RTL
        then (3%Z, 0 + 2 * row_height)
        else (2%Z, 0 + row_height) in
      printed_by_rows mark_reinforcements_dict diameter_list first_row
        (sort_by Z.leb (keys mark_reinforcements_dict))
        {| rows := [];
           dia_total_length_dict :=
             fold_left (fun d dia => dict_set Qeq_bool d dia 0)
               diameter_list [];
           y_offset := y_offset1;
           current_row := first_row;
           console := [] |}
  end.
End Table.

(** *** Embedding in the template and writing *)

(** Markup produced by [toprettyxml]: the whole document, the table alone,
    or the template with the table, transformed, in place of the marker
    [<!-- DrawingContent -->]. *)
Inductive markup : Type :=
| Document (r : svg_root)
| Fragment (table_svg : svg)
| Sheet (template_svg : string) (translate_x translate_y scale : Q)
    (table_svg : svg).

(** The attributes set on [bom_obj.Views[0]]. *)
Record BOMContent : Type := {
  Symbol : markup;
  Font : string;
  FontSize : Q;
  Width : Q;
  Height : Q;
  LeftOffset : Q;
  TopOffset : Q;
  MinRightOffset : Q;
  MinBottomOffset : Q;
  MaxWidth : option Q;
  MaxHeight : option Q;
  X : Q;
  Y : Q;
  Scale : Q
}.

Inductive event : Type :=
| PrintError (message : string)       (* FreeCAD.Console.PrintError *)
| SetContent (content : BOMContent)
  (* open(path, "w") has returned: the file exists and is empty *)
| OpenFile (path : string)
| WriteFile (path : string) (content : markup)
| Recompute.                          (* FreeCAD.ActiveDocument.recompute() *)

(** *** Serialisation *)

(** A character of a string is a code point below 256.  XML allows all of
    them but the control characters other than tab, line feed and carriage
    return. *)
Definition xml_char (c : Ascii.ascii) : bool :=
  let n := Ascii.nat_of_ascii c in
  (32 <=? n)%nat || (n =? 9)%nat || (n =? 10)%nat || (n =? 13)%nat.

Fixpoint xml_string (s : string) : bool :=
  match s with
  | EmptyString => true
  | String c tl => xml_char c && xml_string tl
  end.

(** The strings of the caller that end up in the text of a cell: numbers
    are written by the host. *)
Definition data_strings (d : data) : list string :=
  match d with
  | Str s => [s]
  | Formatted _ _ _ suffix => [suffix]
  | Int _ | Rounded _ _ | DiaHeader _ _ => []
  end.

(** The strings that are attribute values or text of an element. *)
Fixpoint svg_strings (s : svg) : list string :=
  match s with
  | rect _ _ _ _ => []
  | text d _ _ font_family _ text_anchor dominant_baseline =>
      data_strings d ++ [font_family; text_anchor; dominant_baseline]
  | g id children =>
      match id with
      | Id name => [name]
      | RowId _ => []
      end ++ flat_map svg_strings children
  end.

(** [minidom.parseString(ElementTree.tostring(element, encoding="unicode"))]
    succeeds: [tostring] escapes the markup characters but leaves a
    control character as it is, and expat refuses the document. *)
Definition parses (s : svg) : bool := forallb xml_string (svg_strings s).

(** Truth value of a string. *)
Definition nonempty (s : string) : bool :=
  match s with
  | EmptyString => false
  | _ => true
  end.

(** The block [try: with open(output_file, "w") as svg_output_file: ...
    except: ...].  Opening creates the file or empties it, whether or not
    the write then succeeds.  The handler prints [str(svg_output_file)], a
    name which is bound only once [open] has returned. *)
Definition write_sheet (host : Host) (output_file : string)
  (svg_sheet : markup) : result unit * list event :=
  let svg_output_file : option string :=
    if open_for_writing host output_file then Some output_file else None in
  let raised :=
    match svg_output_file with
    | Some _ => negb (write_succeeds host output_file)
    | None => true
    end in
  if raised then
    match svg_output_file with
    | Some handle =>
        (Ok tt,
         [OpenFile handle;
          PrintError ("Error writing svg to file "
                      ++ str_of_file host handle ++ nl)])
    | None => (Raise (UnboundLocalError "svg_output_file"), [])
    end
  else (Ok tt, [OpenFile output_file; WriteFile output_file svg_sheet]).

Definition makeBillOfMaterialSVG (host : Host)
  (column_headers : headers) (column_units : units)
  (rebar_length_type : string) (font_family : string) (font_size : Q)
  (column_width row_height : Q)
  (bom_left_offset bom_top_offset : Q)
  (bom_min_right_offset bom_min_bottom_offset : Q)
  (bom_table_svg_max_width bom_table_svg_max_height : option Q)
  (template_file : string) (output_file : option string)
  : result markup * list event :=
  match makeTable host column_headers column_units rebar_length_type
          font_family font_size column_width row_height with
  | Raise e =>
      (Raise e,
       map PrintError
         (printed_by_table host column_headers column_units
            rebar_length_type font_family font_size column_width
            row_height))
  | Ok t =>
      let trace := map PrintError (printed t) in
      if negb (parses (bom_table_svg t)) then (Raise ExpatError, trace)
      else
      let svg_output := Document (root t) in
      let (template_width, template_height) :=
        template_size host template_file in
      match getBOMScalingFactor (bom_width t) (bom_height t)
              bom_left_offset bom_top_offset template_width template_height
              bom_min_right_offset bom_min_bottom_offset
              bom_table_svg_max_width bom_table_svg_max_height with
      | Raise e => (Raise e, trace)
      | Ok scaling_factor =>
          let bom_content_obj :=
            {| Symbol := svg_output;
               Font := font_family;
               FontSize := font_size;
               Width := bom_width t;
               Height := bom_height t;
               LeftOffset := bom_left_offset;
               TopOffset := bom_top_offset;
               MinRightOffset := bom_min_right_offset;
               MinBottomOffset := bom_min_bottom_offset;
               MaxWidth := bom_table_svg_max_width;
               MaxHeight := bom_table_svg_max_height;
               X := bom_width t * scaling_factor / 2 + bom_left_offset;
               Y := template_height - bom_height t * scaling_factor / 2
                    - bom_top_offset;
               Scale := scaling_factor |} in
          let trace := trace ++ [SetContent bom_content_obj] in
          let (template_svg, trace) :=
            match read_file host template_file with
            | Some content => (content, trace)
            | None =>
                (""%string,
                 trace ++ [PrintError ("Error reading template file "
                                       ++ template_file ++ nl)])
            end in
          match output_file with
          | Some path =>
              if nonempty path then
                let svg_sheet :=
                  if nonempty template_svg
                  then Sheet template_svg bom_left_offset bom_top_offset
                         scaling_factor (bom_table_svg t)
                  else Fragment (bom_table_svg t) in
                match write_sheet host path svg_sheet with
                | (Raise e, written) => (Raise e, trace ++ written)
                | (Ok _, written) =>
                    (Ok svg_output, trace ++ written ++ [Recompute])
                end
              else (Ok svg_output, trace ++ [Recompute])
          | None => (Ok svg_output, trace ++ [Recompute])
          end
      end
  end.

End BillOfMaterial_SVG.

(** * Vocabulary of the properties *)

Import BOMfunc BillOfMaterial_SVG.

(** ** The page test and the caps, in double precision *)

(** The slack of an axis as the function computes it: the page less the
    natural size, the offset and the clearance, rounded at each
    subtraction. *)
Definition slack (page size offset clearance : Binary64.double)
  : Binary64.double :=
  Binary64.sub (Binary64.sub (Binary64.sub page size) offset) clearance.

(** The room of an axis as the function computes it: the page less the
    offset and the clearance. *)
Definition room (page offset clearance : Binary64.double)
  : Binary64.double :=
  Binary64.sub (Binary64.sub page offset) clearance.

(** A cap fits when it is unset, or zero (which the code reads as unset), or
    not smaller than the natural size. *)
Definition cap_fits (cap : option Binary64.double)
  (natural : Binary64.double) : Prop :=
  match cap with
  | Some m => Binary64.is_zero m = true \/ Binary64.ltb m natural = false
  | None => True
  end.

(** A cap that is set and strictly smaller than the natural size. *)
Definition cap_smaller (cap : option Binary64.double)
  (natural : Binary64.double) : Prop :=
  exists m,
    cap = Some m /\ Binary64.is_zero m = false
    /\ Binary64.ltb m natural = true.

(** A cap, when given, is not below zero. *)
Definition cap_not_negative (cap : option Binary64.double) : Prop :=
  match cap with
  | Some m => Binary64.ltb m Binary64.zero = false
  | None => True
  end.

(** A finite double above zero. *)
Definition finite_positive (x : Binary64.double) : Prop :=
  exists m e, x = S754_finite false m e.

(** The rational that a finite double denotes. *)
Definition value (x : Binary64.double) : Q :=
  match x with
  | S754_finite s m e =>
      (if s then -1 else 1) * inject_Z (Zpos m) * 2 ^ e
  | _ => 0
  end.

(** The edges of a filleted wire: straight segments and fillet arcs in
    turn. *)
Fixpoint alternating (expect_straight : bool) (l : list Edge) : bool :=
  match l with
  | [] => true
  | e :: tl =>
      Bool.eqb (straight e) expect_straight
      && alternating (negb expect_straight) tl
  end.

(** [cornerCount]: half the edges of a closed shape, half of one less of an
    open one. *)
Definition corner_count (closed : bool) (edges : list Edge) : Q :=
  if closed then inject_Z (len edges) / 2
  else (inject_Z (len edges) - 1) / 2.

(** ** Sample inputs *)

(** An open wire of three edges, 100 and 200 long with a fillet of radius 10
    between them. *)
Definition bent_rebar : BaseRebarT :=
  {| MarkNumber := Some 1%Z; Diameter := 8; Length := 315;
     Base := {| base_Length := Some 315;
                FilletRadius := Some 10;
                Closed := false;
                Edges := [ {| edge_Length := 100; straight := true |};
                           {| edge_Length := 15; straight := false |};
                           {| edge_Length := 200; straight := true |} ];
                isSketch := false;
                Geometry := [] |} |}.

(** An open wire of four edges in which two straight segments follow each
    other: 100, 50, a fillet of radius 10 and 200. *)
Definition kinked_rebar : BaseRebarT :=
  {| MarkNumber := Some 1%Z; Diameter := 8; Length := 365;
     Base := {| base_Length := Some 365;
                FilletRadius := Some 10;
                Closed := false;
                Edges := [ {| edge_Length := 100; straight := true |};
                           {| edge_Length := 50; straight := true |};
                           {| edge_Length := 15; straight := false |};
                           {| edge_Length := 200; straight := true |} ];
                isSketch := false;
                Geometry := [] |} |}.

(** ** Lists of diameters *)

(** [x in l] for numbers. *)
Definition Qmem (x : Q) (l : list Q) : bool := existsb (Qeq_bool x) l.

(** No two entries of the list are equal numbers. *)
Fixpoint Qnodup (l : list Q) : Prop :=
  match l with
  | [] => True
  | x :: tl => Qmem x tl = false /\ Qnodup tl
  end.

(** ** Marks of the document *)

(** The mark under which [getMarkReinforcementsDict] files an object, if it
    is a reinforcing bar. *)
Definition mark_of (item : DocObject) : option Z :=
  match obj_BaseRebar item, obj_IfcType item with
  | Some base_rebar, Some ifc =>
      if String.eqb ifc "Reinforcing Bar" then
        Some match MarkNumber base_rebar with
             | None => 0%Z
             | Some m => m
             end
      else None
  | _, _ => None
  end.

Definition marks_of (objects_list : list DocObject) : list Z :=
  flat_map (fun item => match mark_of item with
                        | Some m => [m]
                        | None => []
                        end) objects_list.

(** The number of distinct marks among the reinforcing bars. *)
Definition distinct_mark_count (objects_list : list DocObject) : Z :=
  len (nodup Z.eq_dec (marks_of objects_list)).

(** Every mark of the dictionary has at least one reinforcement. *)
Definition groups_nonempty (d : mark_dict) : Prop :=
  Forall (fun kv => snd kv <> []) d.

(** ** Rows *)

(** The length of one piece under the length mode chosen: the authored
    length, or the sharp edged one. *)
Definition per_item_length (rebar_length_type : string)
  (base_rebar : BaseRebarT) : Q :=
  if String.eqb rebar_length_type "RealLength"
  then Length base_rebar
  else fst (getRebarSharpEdgedLength base_rebar).

(** The sum of the multiplicities of a group. *)
Definition multiplicity (reinforcements : list Reinforcement) : Z :=
  fold_left (fun acc reinforcement => (acc + Amount reinforcement)%Z)
    reinforcements 0%Z.

(** What the row of a mark adds to the total length of its diameter. *)
Definition row_contribution (column_headers : headers)
  (rebar_length_type : string) (mark_reinforcements_dict : mark_dict)
  (mark_number : Z) : Q :=
  match dict_get Z.eqb mark_reinforcements_dict mark_number with
  | Some ((reinforcement0 :: _) as reinforcements) =>
      rebar_total_length reinforcements
        (fst (base_rebar_length column_headers rebar_length_type
                (BaseRebar reinforcement0)))
  | _ => 0
  end.

(** The sub-columns of the total length column in a row: the value in the
    sub-column of the diameter of the row, an empty bordered rectangle in
    every other one. *)
Definition sub_column_cells (value : data) (font_family : string)
  (font_size column_width row_height : Q) (diameter_list : list Q)
  (column_offset y row_diameter : Q) : list svg :=
  map (fun entry : nat * Q =>
         let x := column_offset + inject_Z (Z.of_nat (fst entry)) * column_width in
         if Qeq_bool (snd entry) row_diameter
         then getSVGDataCell value x y column_width row_height font_family
                font_size
         else getSVGRectangle x y column_width row_height)
    (enumerate diameter_list).

(** The multiplicity-weighted sum of the lengths of the pieces of a
    group. *)
Definition weighted_length_sum (rebar_length_type : string)
  (reinforcements : list Reinforcement) : Q :=
  Qsum (map (fun reinforcement =>
               inject_Z (Amount reinforcement)
               * per_item_length rebar_length_type (BaseRebar reinforcement))
          reinforcements).

Section RowsDrawn.
Variables (host : Host) (column_headers : headers) (column_units : units)
  (rebar_length_type font_family : string)
  (font_size column_width row_height : Q)
  (mark_reinforcements_dict : mark_dict) (diameter_list : list Q).

(** The left edge of a column. *)
Definition offset_of (key : string) : Q :=
  match getColumnOffset column_headers diameter_list key column_width with
  | Ok x => x
  | Raise _ => 0
  end.

(** The cell of a column in the row at height [y], if the column is
    configured. *)
Definition drawn_cell (key : string) (d : data) (y : Q) : list svg :=
  if sin column_headers key
  then [getSVGDataCell d (offset_of key) y column_width row_height
          font_family font_size]
  else [].

(** The row of a mark, drawn as row [n] at height [y]: the mark, the sum of
    the multiplicities of its group, the diameter and the length of its
    first reinforcement, then the sub-columns of the total length. *)
Definition row_at (n : Z) (y : Q) (mark_number : Z) : svg :=
  match dict_get Z.eqb mark_reinforcements_dict mark_number with
  | Some ((reinforcement0 :: _) as reinforcements) =>
      let base_rebar := BaseRebar reinforcement0 in
      g (RowId n)
        (drawn_cell "Mark" (Int mark_number) y
         ++ drawn_cell "RebarsCount" (Int (multiplicity reinforcements)) y
         ++ drawn_cell "Diameter"
              (disp column_units "Diameter" (Diameter base_rebar)
                 (Decimals host)) y
         ++ drawn_cell "RebarLength"
              (disp column_units "RebarLength"
                 (fst (base_rebar_length column_headers rebar_length_type
                         base_rebar))
                 (Decimals host)) y
         ++ (if sin column_headers "RebarsTotalLength"
             then sub_column_cells
                    (disp column_units "RebarsTotalLength"
                       (row_contribution column_headers rebar_length_type
                          mark_reinforcements_dict mark_number)
                       (Decimals host))
                    font_family font_size column_width row_height
                    diameter_list (offset_of "RebarsTotalLength") y
                    (Diameter base_rebar)
             else []))
  | _ => g (RowId n) []
  end.

(** The rows of the marks in turn, numbered from [n] and stacked from
    [y]. *)
Fixpoint rows_from (n : Z) (y : Q) (marks : list Z) : list svg :=
  match marks with
  | [] => []
  | mark_number :: tl =>
      row_at n y mark_number :: rows_from (n + 1) (y + row_height) tl
  end.
End RowsDrawn.

(** ** Height of the table *)

(** The height of the header band drawn by [getColumnHeadersSVG]: two rows
    when the total length column is visible, one row otherwise. *)
Definition header_height (column_headers : headers) (row_height : Q) : Q :=
  if sin (delete_hidden column_headers) RTL
  then 2 * row_height else row_height.

(** The texts of a drawing, in document order. *)
Fixpoint texts_of (s : svg) : list data :=
  match s with
  | rect _ _ _ _ => []
  | text d _ _ _ _ _ _ => [d]
  | g _ children => flat_map texts_of children
  end.

(** ** More sample inputs *)

Definition straight_wire (length : Q) : BaseT :=
  {| base_Length := Some length; FilletRadius := None; Closed := false;
     Edges := []; isSketch := false; Geometry := [] |}.

(** A reinforcing bar of the document. *)
Definition bar (mark : Z) (diameter length : Q) (amount : Z) : DocObject :=
  {| obj_BaseRebar :=
       Some {| MarkNumber := Some mark; Diameter := diameter;
               Length := length; Base := straight_wire length |};
     obj_IfcType := Some "Reinforcing Bar"%string;
     obj_Amount := amount |}.

(** A host with an A3 page; [readable] and [writable] say whether the
    template can be read and the output file opened. *)
Definition sample_host (objects_list : list DocObject) (weights : qdict)
  (readable writable : bool) : Host :=
  {| Decimals := 2;
     DIA_WEIGHT_MAP := weights;
     objects := objects_list;
     template_size := fun _ => (420, 297);
     read_file := fun _ =>
       if readable
       then Some "<svg><!-- DrawingContent --></svg>"%string else None;
     open_for_writing := fun _ => writable;
     write_succeeds := fun _ => writable;
     str_of_file := fun path =>
       ("<_io.TextIOWrapper name='" ++ path
        ++ "' mode='w' encoding='UTF-8'>")%string |}.

(** The five columns in their usual order. *)
Definition scenario_headers : headers :=
  [ ("Mark", ("Mark", 1%Z));
    ("RebarsCount", ("No. of Rebars", 2%Z));
    ("Diameter", ("Diameter in mm", 3%Z));
    ("RebarLength", ("Length in m/piece", 4%Z));
    ("RebarsTotalLength", ("Total Length in m", 5%Z)) ]%string.

Definition scenario_units : units :=
  [ ("Diameter", "mm"); ("RebarLength", "m");
    ("RebarsTotalLength", "m") ]%string.

(** Two marks, of diameters 8 and 10, and an empty weight table. *)
Definition scenario_host : Host :=
  sample_host [bar 1 8 1000 2; bar 2 10 500 3] [] true true.

(** The bare rectangles of a drawing, those that are not the frame of a
    data cell: the empty placeholders and the closing rectangle. *)
Fixpoint placeholders_of (s : svg) : list svg :=
  match s with
  | rect _ _ _ _ => [s]
  | text _ _ _ _ _ _ _ => []
  | g id children =>
      if match id with
         | Id name => String.eqb name "bom_table_cell"
         | RowId _ => false
         end
      then []
      else flat_map placeholders_of children
  end.

(** One mark of diameter 8: two bars, 1000 long. *)
Definition one_mark_host (readable writable : bool) : Host :=
  sample_host [bar 1 8 1000 2] [] readable writable.

(** The mark column hidden by the order 0. *)
Definition hidden_mark_headers : headers :=
  [ ("Mark", ("Mark", 0%Z));
    ("RebarsCount", ("No. of Rebars", 1%Z)) ]%string.

(** The total length column first, then the mark and the length. *)
Definition total_first_headers : headers :=
  [ ("RebarsTotalLength", ("Total Length in m", 1%Z));
    ("Mark", ("Mark", 2%Z));
    ("RebarLength", ("Length in m/piece", 3%Z)) ]%string.

(** The mark and the length first, then the total length column. *)
Definition total_last_headers : headers :=
  [ ("Mark", ("Mark", 1%Z));
    ("RebarLength", ("Length in m/piece", 2%Z));
    ("RebarsTotalLength", ("Total Length in m", 3%Z)) ]%string.

(** ** Groups of the document *)

(** The mark and the entry that [getMarkReinforcementsDict] files for an
    object, if it is a reinforcing bar. *)
Definition as_reinforcement (item : DocObject)
  : option (Z * Reinforcement) :=
  match obj_BaseRebar item, obj_IfcType item with
  | Some base_rebar, Some ifc =>
      if String.eqb ifc "Reinforcing Bar" then
        Some (match MarkNumber base_rebar with
              | None => 0%Z
              | Some m => m
              end,
              {| BaseRebar := base_rebar; Amount := obj_Amount item |})
      else None
  | _, _ => None
  end.

(** The reinforcing bars of a mark, in the order of the document. *)
Definition reinforcements_of_mark (mark_number : Z)
  (objects_list : list DocObject) : list Reinforcement :=
  flat_map (fun item =>
              match as_reinforcement item with
              | Some (m, reinforcement) =>
                  if Z.eqb mark_number m then [reinforcement] else []
              | None => []
              end) objects_list.

(** The list under a mark, empty when the mark is not a key. *)
Definition group_of (d : mark_dict) (mark_number : Z) : list Reinforcement :=
  match dict_get Z.eqb d mark_number with
  | Some l => l
  | None => []
  end.

(** A reinforcement with a straight bar of the given diameter. *)
Definition sample_reinforcement (diameter : Q) (amount : Z) : Reinforcement :=
  {| BaseRebar := {| MarkNumber := None; Diameter := diameter;
                     Length := 1000; Base := straight_wire 1000 |};
     Amount := amount |}.

(** Three marks, of diameters 12, 8 and 12. *)
Definition sample_mark_dict : mark_dict :=
  [ (3%Z, [sample_reinforcement 12 1]);
    (1%Z, [sample_reinforcement 8 2; sample_reinforcement 10 1]);
    (2%Z, [sample_reinforcement 12 4]) ].

(** The text printed when the length of a rebar cannot be computed. *)
Definition cannot_calculate : string :=
  "Cannot calculate rebar length from its base object" ++ nl.

(** ** Columns of the header *)

Definition order_of (entry : string * (string * Z)) : Z := snd (snd entry).

Definition is_total (entry : string * (string * Z)) : bool :=
  String.eqb (fst entry) "RebarsTotalLength".

(** The width a column takes in the header: one column width, or one per
    diameter for the total length column. *)
Definition header_width (column_width : Q) (diameter_list : list Q)
  (entry : string * (string * Z)) : Q :=
  if is_total entry then column_width * inject_Z (len diameter_list)
  else column_width.

(** The orders of the visible columns are 1, 2, ..., each once. *)
Definition orders_consecutive (column_headers : headers) : Prop :=
  Permutation (map order_of (delete_hidden column_headers))
    (map Z.of_nat (seq 1 (List.length (delete_hidden column_headers)))).

(** The texts of the header of one column: its label and, for the total
    length column, one sub-header per diameter. *)
Definition header_texts (diameter_list : list Q) (dia_precision : Z)
  (entry : string * (string * Z)) : list data :=
  Str (fst (snd entry))
  :: (if is_total entry
      then map (fun dia => DiaHeader dia dia_precision) diameter_list
      else []).

(** ** Rows and totals *)

(** The diameter under which the row of a mark is counted: that of its
    first reinforcement. *)
Definition diameter_of_mark (mark_reinforcements_dict : mark_dict)
  (mark_number : Z) : option Q :=
  match dict_get Z.eqb mark_reinforcements_dict mark_number with
  | Some (reinforcement0 :: _) => Some (Diameter (BaseRebar reinforcement0))
  | _ => None
  end.

Definition has_diameter (mark_reinforcements_dict : mark_dict) (dia : Q)
  (mark_number : Z) : bool :=
  match diameter_of_mark mark_reinforcements_dict mark_number with
  | Some d => Qeq_bool d dia
  | None => false
  end.

(** The sum of the contributions of the rows of a diameter. *)
Definition contributions_of_diameter (column_headers : headers)
  (rebar_length_type : string) (mark_reinforcements_dict : mark_dict)
  (marks : list Z) (dia : Q) : Q :=
  Qsum (map (row_contribution column_headers rebar_length_type
               mark_reinforcements_dict)
          (filter (has_diameter mark_reinforcements_dict dia) marks)).

(** The texts of the three captions of the totals. *)
Definition caption_texts (column_units : units) : list data :=
  match sget column_units RTL with
  | Some unit =>
      [ Str ("Total length in " ++ unit ++ "/Diameter");
        Str ("Weight in Kg/" ++ unit);
        Str "Total Weight in Kg/Diameter" ]
  | None => []
  end.

(** The mark and the diameter only. *)
Definition plain_headers : headers :=
  [ ("Mark", ("Mark", 1%Z)); ("Diameter", ("Diameter in mm", 2%Z)) ]%string.

(** ** Messages *)

(** The messages of the rows: for each mark in turn, what computing the
    length of its first reinforcement prints. *)
Definition row_messages (column_headers : headers)
  (rebar_length_type : string) (mark_reinforcements_dict : mark_dict)
  (marks : list Z) : list string :=
  flat_map
    (fun mark_number =>
       match dict_get Z.eqb mark_reinforcements_dict mark_number with
       | Some (reinforcement0 :: _) =>
           snd (base_rebar_length column_headers rebar_length_type
                  (BaseRebar reinforcement0))
       | _ => []
       end)
    marks.

(** What a run prints about its template. *)
Definition template_report (host : Host) (template_file : string)
  : list event :=
  match read_file host template_file with
  | Some _ => []
  | None =>
      [PrintError ("Error reading template file " ++ template_file ++ nl)]
  end.

(** ** The sheet *)

(** What is written to the output file: the template with the table in
    place of its marker when the template could be read and is not empty,
    the table alone otherwise. *)
Definition sheet_of (host : Host) (template_file : string)
  (bom_left_offset bom_top_offset scaling_factor : Q) (table_svg : svg)
  : markup :=
  match read_file host template_file with
  | Some template_svg =>
      if nonempty template_svg
      then Sheet template_svg bom_left_offset bom_top_offset scaling_factor
             table_svg
      else Fragment table_svg
  | None => Fragment table_svg
  end.

(** A host whose output file opens but cannot be written. *)
Definition full_disk_host : Host :=
  {| Decimals := 2;
     DIA_WEIGHT_MAP := [];
     objects := [bar 1 8 1000 2];
     template_size := fun _ => (420, 297);
     read_file := fun _ => None;
     open_for_writing := fun _ => true;
     write_succeeds := fun _ => false;
     str_of_file := fun path => ("<file " ++ path ++ ">")%string |}.

(** The events that report on files: what was printed and what was
    written. *)
Definition is_report (ev : event) : bool :=
  match ev with
  | PrintError _ | OpenFile _ | WriteFile _ _ => true
  | SetContent _ | Recompute => false
  end.

(** * Properties *)


(** ** Arithmetic helpers *)

Lemma Qeq_bool_false_iff (x y : Q) : Qeq_bool x y = false <-> ~ x == y.
Proof.
  split.
  - apply Qeq_bool_neq.
  - intros H. destruct (Qeq_bool x y) eqn:E; [|reflexivity].
    apply Qeq_bool_iff in E. contradiction.
Qed.

(** ** Doubles *)

(** Shifting a mantissa that is not negative leaves it so: rounding never
    yields the error value of [binary_round_aux]. *)
Lemma shr_1_nonneg (mrs : shr_record) :
  (0 <= shr_m mrs)%Z -> (0 <= shr_m (shr_1 mrs))%Z.
Proof.
  destruct mrs as [m r s]. simpl.
  destruct m as [|p|p]; [| |lia]; intros _.
  - simpl. lia.
  - destruct p; simpl; lia.
Qed.

Lemma iter_shr_1_nonneg (p : positive) (mrs : shr_record) :
  (0 <= shr_m mrs)%Z -> (0 <= shr_m (iter_pos shr_1 p mrs))%Z.
Proof.
  revert mrs. induction p as [p IH|p IH|]; intros mrs H; simpl.
  - apply IH, IH, shr_1_nonneg, H.
  - apply IH, IH, H.
  - apply shr_1_nonneg, H.
Qed.

Lemma shr_fexp_nonneg (m e : Z) (l : location) :
  (0 <= m)%Z ->
  (0 <= shr_m (fst (shr_fexp Binary64.prec Binary64.emax m e l)))%Z.
Proof.
  intros H. unfold shr_fexp, shr.
  assert (H0 : (0 <= shr_m (shr_record_of_loc m l))%Z).
  { destruct l as [|[]]; exact H. }
  destruct (fexp Binary64.prec Binary64.emax (Zdigits2 m + e) - e)%Z;
    simpl; try exact H0.
  apply iter_shr_1_nonneg, H0.
Qed.

Lemma round_nearest_even_nonneg (m : Z) (l : location) :
  (0 <= m)%Z -> (0 <= round_nearest_even m l)%Z.
Proof.
  intros H. destruct l as [|[]]; simpl; try lia.
  destruct (Z.even m); lia.
Qed.

(** Rounding a quantity that is not negative gives a number that is not
    below zero. *)
Lemma binary_round_aux_nonneg (mx ex : Z) (lx : location) :
  (0 <= mx)%Z ->
  Binary64.leb Binary64.zero
    (binary_round_aux Binary64.prec Binary64.emax false mx ex lx) = true.
Proof.
  intros H. unfold binary_round_aux.
  pose proof (shr_fexp_nonneg mx ex lx H) as H1.
  destruct (shr_fexp Binary64.prec Binary64.emax mx ex lx) as [mrs' e'].
  simpl fst in H1.
  pose proof (shr_fexp_nonneg _ e' loc_Exact
                (round_nearest_even_nonneg _ (loc_of_shr_record mrs') H1))
    as H2.
  destruct (shr_fexp Binary64.prec Binary64.emax _ e' loc_Exact)
    as [mrs'' e''].
  simpl fst in H2.
  destruct (shr_m mrs'') as [|m|m]; [reflexivity| |lia].
  destruct (e'' <=? Binary64.emax - Binary64.prec)%Z; reflexivity.
Qed.

Lemma div_core_nonneg (m1 m2 : positive) (e1 e2 : Z) :
  (0 <= fst (fst (SFdiv_core_binary Binary64.prec Binary64.emax
                    (Zpos m1) e1 (Zpos m2) e2)))%Z.
Proof.
  unfold SFdiv_core_binary.
  set (s := (e1 - e2 - _)%Z).
  set (m' := match s with
             | Zpos _ => Z.shiftl (Zpos m1) s
             | Z0 => Zpos m1
             | Zneg _ => 0%Z
             end).
  assert (Hm : (0 <= m')%Z).
  { subst m'. destruct s; try lia. apply Z.shiftl_nonneg. lia. }
  pose proof (Z_div_mod m' (Zpos m2) eq_refl) as Hd.
  destruct (Z.div_eucl m' (Zpos m2)) as [q r]. simpl.
  nia.
Qed.

(** A number above zero divided by a finite number above zero is a number
    that is not below zero: it may be zero, by underflow. *)
Lemma div_nonneg (x y : Binary64.double) :
  Binary64.ltb Binary64.zero x = true -> finite_positive y ->
  Binary64.leb Binary64.zero (SFdiv Binary64.prec Binary64.emax x y) = true.
Proof.
  intros Hx (m2 & e2 & ->).
  destruct x as [s|s| |s m1 e1]; try discriminate Hx;
    destruct s; try discriminate Hx.
  - reflexivity.
  - simpl SFdiv.
    pose proof (div_core_nonneg m1 m2 e1 e2) as H.
    destruct (SFdiv_core_binary Binary64.prec Binary64.emax
                (Zpos m1) e1 (Zpos m2) e2) as [[mz ez] lz].
    apply binary_round_aux_nonneg. exact H.
Qed.

Lemma finite_positive_not_zero (x : Binary64.double) :
  finite_positive x -> Binary64.is_zero x = false.
Proof. intros (m & e & ->). reflexivity. Qed.

Lemma truediv_nonneg (x y : Binary64.double) :
  Binary64.ltb Binary64.zero x = true -> finite_positive y ->
  exists q,
    Binary64.truediv x y = Ok q
    /\ Binary64.leb Binary64.zero q = true.
Proof.
  intros Hx Hy. unfold Binary64.truediv.
  rewrite (finite_positive_not_zero y Hy).
  eexists. split; [reflexivity|]. apply div_nonneg; assumption.
Qed.

(** ** The scaling factor *)

Lemma cap_test (cap : option Binary64.double) (natural : Binary64.double)
  (scale : bool) :
  match cap with
  | Some m =>
      if Binary64.truthy cap
      then if Binary64.ltb m natural then true else scale
      else scale
  | None => scale
  end = true <-> scale = true \/ cap_smaller cap natural.
Proof.
  unfold cap_smaller. destruct cap as [m|]; simpl.
  - destruct (Binary64.is_zero m) eqn:E0; simpl.
    + split; [auto|].
      intros [H|(m' & Hm & Hn & _)]; [assumption|].
      injection Hm as <-. congruence.
    + destruct (Binary64.ltb m natural) eqn:El.
      * split; [|reflexivity]. intros _. right. exists m. auto.
      * split; [auto|].
        intros [H|(m' & Hm & _ & Hlt)]; [assumption|].
        injection Hm as <-. congruence.
  - split; [auto|]. intros [H|(m' & Hm & _)]; [assumption|discriminate].
Qed.

Lemma scale_flag_iff bw bh lo to tw th ro bo mw mh :
  Binary64.scale_flag bw bh lo to tw th ro bo mw mh = true <->
  Binary64.ltb (slack tw bw lo ro) Binary64.zero = true
  \/ Binary64.ltb (slack th bh to bo) Binary64.zero = true
  \/ cap_smaller mw bw \/ cap_smaller mh bh.
Proof.
  unfold Binary64.scale_flag. cbv zeta.
  rewrite cap_test, cap_test. fold (slack tw bw lo ro) (slack th bh to bo).
  destruct (Binary64.ltb (slack tw bw lo ro) Binary64.zero); simpl;
    [tauto|].
  destruct (Binary64.ltb (slack th bh to bo) Binary64.zero); simpl;
    [tauto|].
  split.
  - intros [[H|H]|H]; [discriminate|tauto|tauto].
  - intros [H|[H|[H|H]]]; [discriminate|discriminate|tauto|tauto].
Qed.

Lemma cap_fits_not_smaller cap natural :
  cap_fits cap natural -> ~ cap_smaller cap natural.
Proof.
  intros Hf (m & -> & Hn & Hlt). simpl in Hf.
  destruct Hf as [H|H]; congruence.
Qed.

(** The table fits the page in exact arithmetic, by 2^-50 on each axis, and
    no cap is set; the slack that the function computes is negative, and
    the factor is the double after 1. *)
Lemma fitting_table_is_scaled :
  0 < value (Binary64.ratio 385 10) - value (Binary64.ratio 81 10)
      - value (Binary64.ratio 282 10) - value (Binary64.ratio 22 10)
  /\ exists f,
       Binary64.getBOMScalingFactor
         (Binary64.ratio 81 10) (Binary64.ratio 81 10)
         (Binary64.ratio 282 10) (Binary64.ratio 282 10)
         (Binary64.ratio 385 10) (Binary64.ratio 385 10)
         (Binary64.ratio 22 10) (Binary64.ratio 22 10) None None = Ok f
       /\ f <> Binary64.one
       /\ value f == 1 + 2 ^ (-52).
Proof.
  split; [vm_compute; reflexivity|].
  eexists. split; [vm_compute; reflexivity|].
  split; [discriminate|vm_compute; reflexivity].
Qed.

(** C4, amended.  The scaling flag is raised exactly when the slack of an
    axis, as the function computes it in double arithmetic, is below zero,
    or a cap that is set is below the natural size.  The factor is exactly 1
    whenever the flag is not raised, so whenever both computed slacks are
    not below zero and the caps fit; a computed slack of zero does not
    raise it. *)
Theorem getBOMScalingFactor_fits_is_one
  (bw bh lo to tw th ro bo : Binary64.double)
  (mw mh : option Binary64.double) :
  (Binary64.scale_flag bw bh lo to tw th ro bo mw mh = true <->
     Binary64.ltb (slack tw bw lo ro) Binary64.zero = true
     \/ Binary64.ltb (slack th bh to bo) Binary64.zero = true
     \/ cap_smaller mw bw \/ cap_smaller mh bh)
  /\ (Binary64.scale_flag bw bh lo to tw th ro bo mw mh = false ->
      Binary64.getBOMScalingFactor bw bh lo to tw th ro bo mw mh
      = Ok Binary64.one)
  /\ (Binary64.ltb (slack tw bw lo ro) Binary64.zero = false ->
      Binary64.ltb (slack th bh to bo) Binary64.zero = false ->
      cap_fits mw bw -> cap_fits mh bh ->
      Binary64.getBOMScalingFactor bw bh lo to tw th ro bo mw mh
      = Ok Binary64.one)
  /\ (forall x, Binary64.is_zero x = true ->
                Binary64.ltb x Binary64.zero = false).
Proof.
  split; [apply scale_flag_iff|].
  assert (Hone : Binary64.scale_flag bw bh lo to tw th ro bo mw mh = false ->
                 Binary64.getBOMScalingFactor bw bh lo to tw th ro bo mw mh
                 = Ok Binary64.one).
  { intros H. unfold Binary64.getBOMScalingFactor. rewrite H. reflexivity. }
  split; [exact Hone|]. split.
  - intros Hw Hh Hcw Hch. apply Hone.
    destruct (Binary64.scale_flag bw bh lo to tw th ro bo mw mh) eqn:E;
      [|reflexivity].
    apply scale_flag_iff in E.
    destruct E as [E|[E|[E|E]]].
    + congruence.
    + congruence.
    + exfalso. exact (cap_fits_not_smaller _ _ Hcw E).
    + exfalso. exact (cap_fits_not_smaller _ _ Hch E).
  - intros x. unfold Binary64.is_zero, Binary64.ltb, SFeqb, SFltb.
    destruct (SFcompare x Binary64.zero) as [[| |]|]; congruence.
Qed.

(** An exact fit on both axes, with a cap equal to the natural width. *)
Lemma getBOMScalingFactor_fits_is_one_witness :
  Binary64.getBOMScalingFactor (Binary64.of_Z 60) (Binary64.of_Z 40)
    (Binary64.of_Z 6) (Binary64.of_Z 6) (Binary64.of_Z 72)
    (Binary64.of_Z 52) (Binary64.of_Z 6) (Binary64.of_Z 6)
    (Some (Binary64.of_Z 60)) None = Ok Binary64.one.
Proof.
  apply (getBOMScalingFactor_fits_is_one (Binary64.of_Z 60)
           (Binary64.of_Z 40) (Binary64.of_Z 6) (Binary64.of_Z 6)
           (Binary64.of_Z 72) (Binary64.of_Z 52) (Binary64.of_Z 6)
           (Binary64.of_Z 6) (Some (Binary64.of_Z 60)) None).
  - vm_compute. reflexivity.
  - vm_compute. reflexivity.
  - right. vm_compute. reflexivity.
  - exact I.
Defined.


Lemma py_min_nonneg (a b : Binary64.double) :
  Binary64.leb Binary64.zero a = true ->
  Binary64.leb Binary64.zero b = true ->
  Binary64.leb Binary64.zero (Binary64.py_min a b) = true.
Proof.
  intros Ha Hb. unfold Binary64.py_min.
  destruct (Binary64.ltb b a); assumption.
Qed.

(** The factor of an axis after its cap: not below zero when the factor
    before the cap is not, the natural size is finite and above zero and the
    cap is not below zero. *)
Lemma capped_factor (cap : option Binary64.double)
  (natural f : Binary64.double) :
  finite_positive natural -> cap_not_negative cap ->
  Binary64.leb Binary64.zero f = true ->
  exists f',
    match cap with
    | Some m =>
        if Binary64.truthy cap then
          rbind (Binary64.truediv m natural)
            (fun c => Ok (Binary64.py_min f c))
        else Ok f
    | None => Ok f
    end = Ok f'
    /\ Binary64.leb Binary64.zero f' = true.
Proof.
  intros Hn Hc Hf. destruct cap as [m|]; [|eauto].
  simpl in Hc. simpl Binary64.truthy.
  destruct (Binary64.is_zero m) eqn:E0; simpl; [eauto|].
  unfold Binary64.truediv. rewrite (finite_positive_not_zero _ Hn).
  simpl. eexists. split; [reflexivity|].
  destruct (Binary64.ltb Binary64.zero m) eqn:Em.
  - apply py_min_nonneg; [exact Hf|]. apply div_nonneg; assumption.
  - assert (Hnan : m = S754_nan).
    { destruct m as [s|s| |s m e]; try reflexivity;
        destruct s; discriminate. }
    subst m. destruct Hn as (m2 & e2 & ->). simpl.
    unfold Binary64.py_min. simpl. exact Hf.
Qed.

(** ** The sharp edged length *)

Lemma fold_left_Qplus_map {A : Type} (f : A -> Q) (l : list A) (a : Q) :
  fold_left (fun acc x => acc + f x) l a = fold_left Qplus (map f l) a.
Proof.
  revert a. induction l as [|x l IH]; intros a; simpl.
  - reflexivity.
  - apply IH.
Qed.


Lemma alternating_every_other (l : list Edge) :
  (alternating true l = true -> filter straight l = every_other l)
  /\ (forall e, alternating true (e :: l) = true ->
                filter straight (e :: l) = every_other (e :: l)).
Proof.
  induction l as [|e' l [IH1 IH2]].
  - split; [reflexivity|].
    intros e H. simpl in *. destruct (straight e); [reflexivity|discriminate].
  - split.
    + intros H. apply IH2. exact H.
    + intros e H.
      change (every_other (e :: e' :: l)) with (e :: every_other l).
      simpl in H. simpl.
      destruct (straight e); [|discriminate].
      destruct (straight e'); [discriminate|].
      simpl in H. f_equal.
      destruct l as [|e'' l]; [reflexivity|].
      apply IH1. exact H.
Qed.





(** ** Column offsets *)



(** ** Sorting, membership and sums *)

Section SortFacts.
Context {A : Type} (leb : A -> A -> bool).

Lemma insert_sorted_perm (x : A) (l : list A) :
  Permutation (insert_sorted leb x l) (x :: l).
Proof.
  induction l as [|y l IH]; simpl.
  - apply Permutation_refl.
  - destruct (leb y x).
    + apply Permutation_trans with (y :: x :: l).
      * apply perm_skip. exact IH.
      * apply perm_swap.
    + apply Permutation_refl.
Qed.

Lemma fold_insert_perm (l acc : list A) :
  Permutation (fold_left (fun acc x => insert_sorted leb x acc) l acc)
    (acc ++ l).
Proof.
  revert acc. induction l as [|x l IH]; intros acc; simpl.
  - rewrite app_nil_r. apply Permutation_refl.
  - eapply Permutation_trans; [apply IH|].
    eapply Permutation_trans.
    + apply Permutation_app_tail. apply insert_sorted_perm.
    + simpl. apply Permutation_middle.
Qed.

Lemma sort_by_perm (l : list A) : Permutation (sort_by leb l) l.
Proof. unfold sort_by. apply (fold_insert_perm l []). Qed.
End SortFacts.

Lemma Qmem_true_iff (x : Q) (l : list Q) :
  Qmem x l = true <-> exists y, In y l /\ x == y.
Proof.
  unfold Qmem. rewrite existsb_exists.
  split; intros (y & Hy & H); exists y; split; try assumption;
    apply Qeq_bool_iff; assumption.
Qed.

Lemma Qmem_false_iff (x : Q) (l : list Q) :
  Qmem x l = false <-> forall y, In y l -> ~ x == y.
Proof.
  split.
  - intros H y Hy Hxy.
    assert (Qmem x l = true) by (apply Qmem_true_iff; eauto).
    congruence.
  - intros H. destruct (Qmem x l) eqn:E; [|reflexivity].
    apply Qmem_true_iff in E. destruct E as (y & Hy & Hxy).
    exfalso. exact (H y Hy Hxy).
Qed.

Lemma Qmem_perm (x : Q) (l l' : list Q) :
  Permutation l l' -> Qmem x l = Qmem x l'.
Proof.
  intros HP. apply eq_true_iff_eq. rewrite !Qmem_true_iff.
  split; intros (y & Hy & H); exists y; split; try assumption.
  - eapply Permutation_in; eassumption.
  - eapply Permutation_in; [apply Permutation_sym|]; eassumption.
Qed.

Lemma Qmem_app (x : Q) (l l' : list Q) :
  Qmem x (l ++ l') = Qmem x l || Qmem x l'.
Proof. unfold Qmem. apply existsb_app. Qed.

Lemma Qnodup_perm (l l' : list Q) :
  Permutation l l' -> Qnodup l -> Qnodup l'.
Proof.
  induction 1 as [|x l l' HP IH|x y l|l l' l'' _ IH1 _ IH2]; simpl.
  - trivial.
  - intros [Hx Hl]. split; [|auto].
    rewrite <- (Qmem_perm x _ _ HP). exact Hx.
  - intros [Hy [Hx Hl]]. simpl in Hy.
    apply orb_false_iff in Hy. destruct Hy as [Hyx Hy].
    repeat split; try assumption.
    simpl. rewrite Qeq_bool_comm, Hyx. exact Hx.
  - auto.
Qed.

Lemma Qnodup_snoc (l : list Q) (x : Q) :
  Qnodup l -> Qmem x l = false -> Qnodup (l ++ [x]).
Proof.
  intros Hl Hx. apply Qnodup_perm with (x :: l).
  - apply Permutation_cons_append.
  - simpl. auto.
Qed.

Lemma fold_Qplus_shift (l : list Q) (a : Q) :
  fold_left Qplus l a == a + fold_left Qplus l 0.
Proof.
  revert a. induction l as [|x l IH]; intros a; simpl.
  - lra.
  - rewrite (IH (a + x)), (IH (0 + x)). lra.
Qed.

Lemma Qsum_cons (x : Q) (l : list Q) : Qsum (x :: l) == x + Qsum l.
Proof.
  unfold Qsum. simpl. rewrite fold_Qplus_shift. lra.
Qed.

Lemma Qsum_app (l l' : list Q) : Qsum (l ++ l') == Qsum l + Qsum l'.
Proof.
  induction l as [|x l IH]; simpl.
  - unfold Qsum at 2. simpl. lra.
  - rewrite !Qsum_cons, IH. lra.
Qed.

(** ** Dictionaries keyed by a diameter *)

Lemma qget_Qeq (d : qdict) (k k' : Q) : k == k' -> qget d k = qget d k'.
Proof.
  intros Hk. unfold qget. induction d as [|[k0 v] d IH]; simpl.
  - reflexivity.
  - rewrite IH.
    replace (Qeq_bool k k0) with (Qeq_bool k' k0); [reflexivity|].
    apply eq_true_iff_eq. rewrite !Qeq_bool_iff. rewrite Hk. tauto.
Qed.

Lemma qget_mem (d : qdict) (k : Q) :
  Qmem k (keys d) = true <-> exists v, qget d k = Some v.
Proof.
  unfold qget, Qmem. induction d as [|[k0 v] d IH]; simpl.
  - split; [discriminate|]. intros (v & H). discriminate.
  - destruct (Qeq_bool k k0); simpl.
    + split; eauto.
    + exact IH.
Qed.

Lemma dict_set_keys (d : qdict) (k v a : Q) :
  qget d k = Some a -> keys (dict_set Qeq_bool d k v) = keys d.
Proof.
  unfold qget. induction d as [|[k0 v0] d IH]; simpl.
  - discriminate.
  - destruct (Qeq_bool k k0); simpl.
    + reflexivity.
    + intros H. rewrite (IH H). reflexivity.
Qed.

Lemma dict_set_get_same (d : qdict) (k v a : Q) :
  qget d k = Some a -> qget (dict_set Qeq_bool d k v) k = Some v.
Proof.
  unfold qget. induction d as [|[k0 v0] d IH]; simpl.
  - discriminate.
  - destruct (Qeq_bool k k0) eqn:E; simpl; rewrite E.
    + reflexivity.
    + exact IH.
Qed.

Lemma dict_set_sum (d : qdict) (k a x : Q) :
  qget d k = Some a ->
  Qsum (map snd (dict_set Qeq_bool d k (a + x))) == Qsum (map snd d) + x.
Proof.
  unfold qget. induction d as [|[k0 v0] d IH]; simpl.
  - discriminate.
  - destruct (Qeq_bool k k0); simpl.
    + intros H. injection H as ->. rewrite !Qsum_cons. simpl. lra.
    + intros H. rewrite !Qsum_cons, (IH H). simpl. lra.
Qed.

Lemma dict_set_new (d : qdict) (k v : Q) :
  Qmem k (keys d) = false -> dict_set Qeq_bool d k v = d ++ [(k, v)].
Proof.
  unfold Qmem. induction d as [|[k0 v0] d IH]; simpl.
  - reflexivity.
  - intros H. apply orb_false_iff in H. destruct H as [H1 H2].
    rewrite H1, (IH H2). reflexivity.
Qed.

(** The dictionary [{dia.Value: 0 for dia in diameter_list}] has the
    diameters as its keys, in their order. *)
Lemma init_totals_shape (l : list Q) (acc : qdict) :
  Qnodup (keys acc ++ l) ->
  fold_left (fun d dia => dict_set Qeq_bool d dia 0) l acc
  = acc ++ map (fun dia => (dia, 0)) l.
Proof.
  revert acc. induction l as [|x l IH]; intros acc Hn; simpl.
  - rewrite app_nil_r. reflexivity.
  - assert (Hx : Qmem x (keys acc) = false).
    { apply Qnodup_perm with (l' := x :: keys acc ++ l) in Hn.
      - destruct Hn as [Hx _]. rewrite Qmem_app in Hx.
        apply orb_false_iff in Hx. tauto.
      - apply Permutation_sym. apply Permutation_middle. }
    rewrite (dict_set_new _ _ _ Hx). rewrite IH.
    + rewrite <- app_assoc. reflexivity.
    + unfold keys in *. rewrite map_app. simpl. rewrite <- app_assoc.
      exact Hn.
Qed.

(** ** The dictionary of marks and the list of diameters *)

Lemma dict_append_keys_in (d : mark_dict) (k : Z) (x : Reinforcement) :
  In k (keys d) -> keys (dict_append d k x) = keys d.
Proof.
  induction d as [|[k0 l] d IH]; simpl.
  - intros [].
  - destruct (Z.eqb_spec k k0) as [->|Hne]; simpl.
    + reflexivity.
    + intros [H|H]; [congruence|]. rewrite (IH H). reflexivity.
Qed.

Lemma dict_append_keys_new (d : mark_dict) (k : Z) (x : Reinforcement) :
  ~ In k (keys d) -> keys (dict_append d k x) = keys d ++ [k].
Proof.
  induction d as [|[k0 l] d IH]; simpl.
  - reflexivity.
  - intros H. destruct (Z.eqb_spec k k0) as [->|Hne]; simpl.
    + exfalso. apply H. left. reflexivity.
    + rewrite IH; [reflexivity|]. intros Hin. apply H. right. exact Hin.
Qed.

Lemma dict_append_nonempty (d : mark_dict) (k : Z) (x : Reinforcement) :
  groups_nonempty d -> groups_nonempty (dict_append d k x).
Proof.
  unfold groups_nonempty. induction d as [|[k0 l] d IH]; simpl; intros H.
  - constructor; [discriminate|constructor].
  - inversion H as [|? ? Hl Hd]; subst.
    destruct (Z.eqb k k0).
    + constructor; [|exact Hd]. simpl. destruct l; discriminate.
    + constructor; [exact Hl|]. apply IH. exact Hd.
Qed.

Lemma dict_append_NoDup (d : mark_dict) (k : Z) (x : Reinforcement) :
  NoDup (keys d) -> NoDup (keys (dict_append d k x)).
Proof.
  intros H. destruct (in_dec Z.eq_dec k (keys d)) as [Hin|Hout].
  - rewrite dict_append_keys_in; assumption.
  - rewrite dict_append_keys_new by assumption.
    apply NoDup_rev in H.
    rewrite <- (rev_involutive (keys d ++ [k])).
    apply NoDup_rev. rewrite rev_app_distr. simpl.
    constructor; [|exact H]. rewrite <- in_rev. exact Hout.
Qed.

Lemma dict_append_keys_iff (d : mark_dict) (k : Z) (x : Reinforcement)
  (m : Z) :
  In m (keys (dict_append d k x)) <-> In m (keys d) \/ m = k.
Proof.
  destruct (in_dec Z.eq_dec k (keys d)) as [Hin|Hout].
  - rewrite dict_append_keys_in by assumption.
    split; [auto|]. intros [H| ->]; assumption.
  - rewrite dict_append_keys_new by assumption.
    rewrite in_app_iff. simpl. intuition congruence.
Qed.

Lemma mark_dict_fold (objects_list : list DocObject) (acc : mark_dict) :
  NoDup (keys acc) -> groups_nonempty acc ->
  let d :=
    fold_left
      (fun mark_reinforcements_dict item =>
         match obj_BaseRebar item, obj_IfcType item with
         | Some base_rebar, Some ifc =>
             if String.eqb ifc "Reinforcing Bar" then
               let mark_number :=
                 match MarkNumber base_rebar with
                 | None => 0%Z
                 | Some m => m
                 end in
               dict_append mark_reinforcements_dict mark_number
                 {| BaseRebar := base_rebar; Amount := obj_Amount item |}
             else mark_reinforcements_dict
         | _, _ => mark_reinforcements_dict
         end)
      objects_list acc in
  NoDup (keys d) /\ groups_nonempty d
  /\ forall m, In m (keys d) <-> In m (keys acc) \/ In m (marks_of objects_list).
Proof.
  revert acc. induction objects_list as [|item l IH]; intros acc Hn Hg.
  - simpl. repeat split; try assumption; tauto.
  - cbv zeta. simpl fold_left.
    unfold marks_of. simpl flat_map. fold (marks_of l).
    unfold mark_of.
    destruct (obj_BaseRebar item) as [base_rebar|];
      [destruct (obj_IfcType item) as [ifc|];
       [destruct (String.eqb ifc "Reinforcing Bar")|]|].
    + match goal with
      | |- context [fold_left ?f l (dict_append acc ?k ?x)] =>
          destruct (IH (dict_append acc k x)
                      (dict_append_NoDup acc k x Hn)
                      (dict_append_nonempty acc k x Hg)) as (H1 & H2 & H3)
      end.
      repeat split; try assumption.
      * intros H. apply H3 in H. rewrite dict_append_keys_iff in H.
        simpl. intuition.
      * intros H. apply H3. rewrite dict_append_keys_iff.
        simpl in H. intuition.
    + destruct (IH acc Hn Hg) as (H1 & H2 & H3). simpl app.
      repeat split; assumption || apply H3.
    + destruct (IH acc Hn Hg) as (H1 & H2 & H3). simpl app.
      repeat split; assumption || apply H3.
    + destruct (IH acc Hn Hg) as (H1 & H2 & H3). simpl app.
      repeat split; assumption || apply H3.
Qed.

(** The dictionary has one entry per distinct mark, none of them empty. *)
Lemma getMarkReinforcementsDict_groups (objects_list : list DocObject) :
  let d := getMarkReinforcementsDict objects_list in
  NoDup (keys d) /\ groups_nonempty d
  /\ (forall m, In m (keys d) <-> In m (marks_of objects_list))
  /\ len d = distinct_mark_count objects_list.
Proof.
  cbv zeta. unfold getMarkReinforcementsDict.
  destruct (mark_dict_fold objects_list [] (NoDup_nil _) (Forall_nil _))
    as (H1 & H2 & H3).
  cbv zeta in H1, H2, H3.
  assert (H3' : forall m,
             In m (keys (getMarkReinforcementsDict objects_list))
             <-> In m (marks_of objects_list)).
  { intros m. unfold getMarkReinforcementsDict. rewrite H3. simpl. tauto. }
  repeat split; try assumption; try apply H3'.
  unfold distinct_mark_count, len. f_equal.
  rewrite <- (length_map fst). apply Permutation_length.
  apply NoDup_Permutation.
  - exact H1.
  - apply NoDup_nodup.
  - intros m. rewrite nodup_In. apply H3'.
Qed.

Lemma mark_dict_lookup (d : mark_dict) (m : Z) :
  groups_nonempty d -> In m (keys d) ->
  exists r rs, dict_get Z.eqb d m = Some (r :: rs) /\ In (m, r :: rs) d.
Proof.
  unfold groups_nonempty. induction d as [|[k l] d IH]; simpl; intros Hg Hin.
  - contradiction.
  - inversion Hg as [|? ? Hl Hd]; subst. simpl in Hl.
    destruct (Z.eqb_spec m k) as [->|Hne].
    + destruct l as [|r rs]; [congruence|]. exists r, rs. auto.
    + destruct Hin as [H|H]; [congruence|].
      destruct (IH Hd H) as (r & rs & Hget & Hin'). exists r, rs. auto.
Qed.

Lemma unique_diameters_ok (items : mark_dict) (acc : list Q) :
  groups_nonempty items -> Qnodup acc ->
  exists dl,
    unique_diameters items acc = Ok dl
    /\ Qnodup dl
    /\ (forall x, Qmem x acc = true -> Qmem x dl = true)
    /\ (forall k r rs, In (k, r :: rs) items ->
                       Qmem (Diameter (BaseRebar r)) dl = true).
Proof.
  unfold groups_nonempty.
  revert acc. induction items as [|[k l] items IH]; intros acc Hg Hn; simpl.
  - exists acc. repeat split; auto.
  - inversion Hg as [|? ? Hl Hd]; subst. simpl in Hl.
    destruct l as [|r0 rs0]; [congruence|]. simpl.
    fold (Qmem (Diameter (BaseRebar r0)) acc).
    destruct (Qmem (Diameter (BaseRebar r0)) acc) eqn:E.
    + destruct (IH acc Hd Hn) as (dl & -> & H1 & H2 & H3).
      exists dl. repeat split; auto.
      intros k' r rs [H|H]; [|eauto].
      injection H as <- <- <-. apply H2. exact E.
    + destruct (IH (acc ++ [Diameter (BaseRebar r0)]) Hd
                  (Qnodup_snoc _ _ Hn E)) as (dl & -> & H1 & H2 & H3).
      exists dl. repeat split; auto.
      * intros x Hx. apply H2. rewrite Qmem_app, Hx. reflexivity.
      * intros k' r rs [H|H]; [|eauto].
        injection H as <- <- <-. apply H2.
        rewrite Qmem_app. simpl. rewrite Qeq_bool_refl.
        apply orb_true_r.
Qed.

Lemma getUniqueDiameterList_ok (d : mark_dict) :
  groups_nonempty d ->
  exists dl,
    getUniqueDiameterList d = Ok dl
    /\ Qnodup dl
    /\ (forall k r rs, In (k, r :: rs) d ->
                       Qmem (Diameter (BaseRebar r)) dl = true).
Proof.
  intros Hg. unfold getUniqueDiameterList.
  destruct (unique_diameters_ok d [] Hg I) as (dl & -> & H1 & _ & H3).
  simpl. exists (sort_by Qle_bool dl). split; [reflexivity|]. split.
  - apply Qnodup_perm with dl; [|exact H1].
    apply Permutation_sym. apply sort_by_perm.
  - intros k r rs Hin.
    rewrite (Qmem_perm _ _ _ (sort_by_perm Qle_bool dl)). eauto.
Qed.

(** ** Rows of the table *)

Lemma mapM_ext {A B : Type} (f f' : A -> result B) (l : list A) :
  (forall x, f x = f' x) -> mapM f l = mapM f' l.
Proof.
  intros H. induction l as [|x l IH]; simpl.
  - reflexivity.
  - rewrite H, IH. reflexivity.
Qed.

Lemma mapM_ok {A B : Type} (f : A -> result B) (l : list A) :
  (forall x, In x l -> exists y, f x = Ok y) -> exists ys, mapM f l = Ok ys.
Proof.
  induction l as [|x l IH]; intros H; simpl.
  - eauto.
  - destruct (H x (or_introl eq_refl)) as [y ->]. simpl.
    destruct IH as [ys ->]; [|simpl; eauto].
    intros z Hz. apply H. right. exact Hz.
Qed.

Lemma index_app_new (pre suf : list Q) (dia : Q) :
  Qmem dia pre = false -> index (pre ++ dia :: suf) dia = Ok (List.length pre).
Proof.
  unfold Qmem. induction pre as [|y pre IH]; simpl.
  - intros _. rewrite Qeq_bool_refl. reflexivity.
  - intros H. apply orb_false_iff in H. destruct H as [H1 H2].
    rewrite Qeq_bool_comm, H1. rewrite (IH H2). reflexivity.
Qed.

Lemma index_enumerate {B : Type} (cell : nat -> Q -> B) (pre suf : list Q) :
  Qnodup (pre ++ suf) ->
  mapM (fun dia => rbind (index (pre ++ suf) dia)
                     (fun i => Ok (cell i dia))) suf
  = Ok (map (fun entry => cell (fst entry) (snd entry))
          (combine (seq (List.length pre) (List.length suf)) suf)).
Proof.
  revert pre. induction suf as [|dia suf IH]; intros pre Hn; simpl.
  - reflexivity.
  - assert (Hd : Qmem dia pre = false).
    { apply Qnodup_perm with (l' := dia :: pre ++ suf) in Hn.
      - destruct Hn as [Hd _]. rewrite Qmem_app in Hd.
        apply orb_false_iff in Hd. tauto.
      - apply Permutation_sym. apply Permutation_middle. }
    rewrite (index_app_new pre suf dia Hd). simpl.
    specialize (IH (pre ++ [dia])).
    rewrite <- app_assoc in IH. simpl in IH. rewrite IH by exact Hn.
    simpl. rewrite length_app. simpl.
    replace (List.length pre + 1)%nat with (S (List.length pre)) by lia.
    reflexivity.
Qed.

Section RowFacts.
Variables (host : Host) (column_headers : headers)
  (column_units : units) (rebar_length_type : string)
  (font_family : string) (font_size : Q) (column_width row_height : Q).
Variables (mark_reinforcements_dict : mark_dict) (diameter_list : list Q).

Lemma getColumnOffset_ok (key : string) :
  sin column_headers key = true ->
  exists x,
    getColumnOffset column_headers diameter_list key column_width = Ok x.
Proof.
  unfold sin, dict_in, getColumnOffset, sget.
  destruct (dict_get String.eqb column_headers key) as [[label seq]|];
    [|discriminate].
  intros _. eauto.
Qed.

Lemma total_length_cells_shape (base_rebar : BaseRebarT) (total y : Q) :
  Qnodup diameter_list ->
  exists cells,
    total_length_cells host column_headers column_units font_family
      font_size column_width row_height diameter_list base_rebar total y
    = Ok cells
    /\ (sin column_headers "RebarsTotalLength" = false -> cells = [])
    /\ (sin column_headers "RebarsTotalLength" = true ->
        exists column_offset,
          getColumnOffset column_headers diameter_list "RebarsTotalLength"
            column_width = Ok column_offset
          /\ cells
             = sub_column_cells
                 (disp column_units "RebarsTotalLength" total
                    (Decimals host))
                 font_family font_size column_width row_height
                 diameter_list column_offset y (Diameter base_rebar)).
Proof.
  intros Hn. unfold total_length_cells.
  destruct (sin column_headers "RebarsTotalLength") eqn:E.
  2:{ exists []. split; [reflexivity|]. split; [reflexivity|discriminate]. }
  destruct (getColumnOffset_ok "RebarsTotalLength" E) as [off Hoff].
  rewrite Hoff. simpl.
  eexists. split; [|split; [discriminate|]].
  2:{ intros _. exists off. split; reflexivity. }
  rewrite (mapM_ext
             _
             (fun dia =>
                rbind (index ([] ++ diameter_list) dia)
                  (fun i =>
                     Ok ((fun i dia =>
                            let x := off + inject_Z (Z.of_nat i)
                                           * column_width in
                            if Qeq_bool dia (Diameter base_rebar)
                            then getSVGDataCell
                                   (disp column_units "RebarsTotalLength"
                                      total (Decimals host))
                                   x y column_width row_height font_family
                                   font_size
                            else getSVGRectangle x y column_width
                                   row_height) i dia)))).
  - rewrite (index_enumerate _ [] diameter_list Hn). reflexivity.
  - intros dia. simpl. destruct (index diameter_list dia); simpl;
      [|reflexivity].
    destruct (Qeq_bool dia (Diameter base_rebar)); reflexivity.
Qed.

Lemma body_cell_drawn (key : string) (d : data) (y : Q) :
  body_cell column_headers font_family font_size column_width row_height
    diameter_list key d y
  = Ok (drawn_cell column_headers font_family font_size column_width
          row_height diameter_list key d y).
Proof.
  unfold body_cell, drawn_cell, offset_of.
  destruct (sin column_headers key) eqn:E; [|reflexivity].
  destruct (getColumnOffset_ok key E) as [x ->]. reflexivity.
Qed.

Lemma total_length_cells_drawn (base_rebar : BaseRebarT) (total y : Q) :
  Qnodup diameter_list ->
  total_length_cells host column_headers column_units font_family
    font_size column_width row_height diameter_list base_rebar total y
  = Ok (if sin column_headers "RebarsTotalLength"
        then sub_column_cells
               (disp column_units "RebarsTotalLength" total
                  (Decimals host))
               font_family font_size column_width row_height
               diameter_list
               (offset_of column_headers column_width diameter_list
                  "RebarsTotalLength")
               y (Diameter base_rebar)
        else []).
Proof.
  intros Hn.
  destruct (total_length_cells_shape base_rebar total y Hn)
    as (cells & -> & Hnone & Hsome).
  destruct (sin column_headers "RebarsTotalLength") eqn:E.
  - destruct (Hsome eq_refl) as (off & Hoff & ->).
    unfold offset_of. rewrite Hoff. reflexivity.
  - rewrite (Hnone eq_refl). reflexivity.
Qed.

Lemma makeRow_ok (first_row : Z) (st : loop_state) (m : Z)
  (r0 : Reinforcement) (rs : list Reinforcement) (acc : Q) :
  Qnodup diameter_list ->
  dict_get Z.eqb mark_reinforcements_dict m = Some (r0 :: rs) ->
  qget (dia_total_length_dict st) (Diameter (BaseRebar r0)) = Some acc ->
  makeRow host column_headers column_units rebar_length_type font_family
    font_size column_width row_height mark_reinforcements_dict
    diameter_list first_row st m
  = Ok {| rows :=
            rows st
            ++ [row_at host column_headers column_units rebar_length_type
                  font_family font_size column_width row_height
                  mark_reinforcements_dict diameter_list
                  (current_row st - first_row + 1) (y_offset st) m];
          dia_total_length_dict :=
            dict_set Qeq_bool (dia_total_length_dict st)
              (Diameter (BaseRebar r0))
              (acc + row_contribution column_headers rebar_length_type
                       mark_reinforcements_dict m);
          y_offset := y_offset st + row_height;
          current_row := (current_row st + 1)%Z;
          console :=
            console st
            ++ snd (base_rebar_length column_headers rebar_length_type
                      (BaseRebar r0)) |}.
Proof.
  intros Hn Hget Hacc.
  unfold makeRow, row_at. rewrite Hget. cbn [first rbind].
  rewrite !body_cell_drawn. cbn [rbind].
  unfold row_contribution. rewrite Hget.
  destruct (base_rebar_length column_headers rebar_length_type
              (BaseRebar r0)) as [length printed] eqn:Eb.
  cbn [fst snd].
  rewrite body_cell_drawn. cbn [rbind].
  rewrite Hacc.
  rewrite (total_length_cells_drawn (BaseRebar r0)
             (rebar_total_length (r0 :: rs) length) (y_offset st) Hn).
  cbn [rbind]. reflexivity.
Qed.

Lemma makeRows_ok (first_row : Z) (marks : list Z) :
  forall st,
    Qnodup diameter_list ->
    (forall m, In m marks ->
               exists r0 rs,
                 dict_get Z.eqb mark_reinforcements_dict m = Some (r0 :: rs)
                 /\ Qmem (Diameter (BaseRebar r0))
                      (keys (dia_total_length_dict st)) = true) ->
    exists st' new_rows,
      makeRows host column_headers column_units rebar_length_type
        font_family font_size column_width row_height
        mark_reinforcements_dict diameter_list first_row marks st = Ok st'
      /\ rows st' = rows st ++ new_rows
      /\ new_rows
         = rows_from host column_headers column_units rebar_length_type
             font_family font_size column_width row_height
             mark_reinforcements_dict diameter_list
             (current_row st - first_row + 1) (y_offset st) marks
      /\ keys (dia_total_length_dict st') = keys (dia_total_length_dict st)
      /\ y_offset st' == y_offset st + inject_Z (len marks) * row_height
      /\ Qsum (map snd (dia_total_length_dict st'))
         == Qsum (map snd (dia_total_length_dict st))
            + Qsum (map (row_contribution column_headers rebar_length_type
                           mark_reinforcements_dict) marks).
Proof.
  induction marks as [|m marks IH]; intros st Hn Hm.
  - exists st, []. simpl. rewrite app_nil_r.
    repeat split; try reflexivity.
    + unfold len. simpl. change (inject_Z 0) with 0. lra.
    + unfold Qsum at 3. simpl. lra.
  - destruct (Hm m (or_introl eq_refl)) as (r0 & rs & Hget & Hin).
    apply qget_mem in Hin. destruct Hin as [acc Hacc].
    pose proof (makeRow_ok first_row st m r0 rs acc Hn Hget Hacc)
      as Hrow.
    simpl makeRows. rewrite Hrow. cbn [rbind].
    match type of Hrow with _ = Ok ?s => set (st1 := s) in * end.
    assert (Hk : keys (dia_total_length_dict st1)
                 = keys (dia_total_length_dict st)).
    { subst st1. simpl. eapply dict_set_keys. exact Hacc. }
    destruct (IH st1 Hn) as (st' & new_rows & -> & Hr & Hf & Hk' & Hy & Hs).
    { intros m' Hin'. destruct (Hm m' (or_intror Hin'))
        as (r' & rs' & Hget' & Hmem').
      exists r', rs'. rewrite Hk. auto. }
    eexists st', (_ :: new_rows).
    split; [reflexivity|]. split.
    { rewrite Hr. subst st1. simpl. rewrite <- app_assoc. reflexivity. }
    split.
    { rewrite Hf. subst st1. cbn [rows_from current_row y_offset].
      replace (current_row st + 1 - first_row + 1)%Z
        with (current_row st - first_row + 1 + 1)%Z by lia.
      reflexivity. }
    split; [congruence|]. split.
    + rewrite Hy. subst st1. simpl. unfold len. simpl List.length.
      rewrite Nat2Z.inj_succ. unfold Z.succ. rewrite inject_Z_plus.
      change (inject_Z 1) with 1. lra.
    + rewrite Hs. subst st1. simpl dia_total_length_dict.
      rewrite (dict_set_sum _ _ _ _ Hacc). simpl map.
      rewrite Qsum_cons. lra.
Qed.
End RowFacts.

(** ** The totals and the whole table *)

Lemma Qsum_zeros (l : list Q) :
  Qsum (map snd (map (fun dia : Q => (dia, 0)) l)) == 0.
Proof.
  induction l as [|x l IH]; simpl.
  - reflexivity.
  - rewrite Qsum_cons, IH. simpl. lra.
Qed.

Lemma keys_init (l : list Q) :
  keys (map (fun dia : Q => (dia, 0)) l) = l.
Proof.
  unfold keys. rewrite map_map. simpl. apply map_id.
Qed.

Lemma qget_of_keys (d : qdict) (dia : Q) :
  In dia (keys d) -> exists v, qget d dia = Some v.
Proof.
  intros Hin. apply qget_mem. apply Qmem_true_iff.
  exists dia. split; [exact Hin|reflexivity].
Qed.

Section TableFacts.
Variables (host : Host) (column_headers : headers)
  (column_units : units) (rebar_length_type : string)
  (font_family : string) (font_size : Q) (column_width row_height : Q).

Lemma dia_totals_ok (first_column : bool) (diameter_list : list Q)
  (totals : qdict) (off y : Q) :
  (forall dia, In dia diameter_list -> exists v, qget totals dia = Some v) ->
  exists cells,
    mapM (if first_column
          then dia_total_first host column_units font_family font_size
                 column_width row_height totals y
          else dia_total_not_first host column_units font_family font_size
                 column_width row_height totals off y)
      (enumerate diameter_list) = Ok cells.
Proof.
  intros Hall. apply mapM_ok. intros [i dia] Hin.
  apply in_combine_r in Hin. destruct (Hall dia Hin) as [v Hv].
  destruct first_column; unfold dia_total_first, dia_total_not_first;
    rewrite Hv; destruct (qget (DIA_WEIGHT_MAP host) dia); eauto.
Qed.

Lemma makeDataTotal_ok (diameter_list : list Q) (totals : qdict) (y : Q) :
  (sin column_headers RTL = true ->
   exists unit, sget column_units RTL = Some unit) ->
  (forall dia, In dia diameter_list -> exists v, qget totals dia = Some v) ->
  exists children,
    makeDataTotal host column_headers column_units font_family font_size
      column_width row_height diameter_list totals y
    = Ok (g (Id "BOM_data_total") children).
Proof.
  intros Hu Hall. unfold makeDataTotal.
  unfold sin, dict_in in Hu. fold (sget column_headers RTL) in Hu.
  destruct (sget column_headers RTL) as [[label total_seq]|] eqn:E;
    [|simpl; eauto].
  destruct (Hu eq_refl) as [unit Hunit].
  destruct (negb (total_seq =? 1)%Z).
  - destruct (getColumnOffset_ok column_headers column_width
                diameter_list RTL) as [off ->].
    { unfold sin, dict_in. fold (sget column_headers RTL).
      rewrite E. reflexivity. }
    cbn [rbind]. unfold captions. rewrite Hunit. cbn [rbind].
    destruct (dia_totals_ok false diameter_list totals off y Hall)
      as [cells Hc].
    simpl in Hc. rewrite Hc. cbn [rbind]. eauto.
  - destruct (dia_totals_ok true diameter_list totals 0 y Hall)
      as [cells Hc].
    simpl in Hc. rewrite Hc. cbn [rbind].
    unfold captions. rewrite Hunit. cbn [rbind]. eauto.
Qed.

Lemma makeDataTotal_KeyError (diameter_list : list Q) (totals : qdict)
  (y : Q) :
  sin column_headers RTL = true -> sget column_units RTL = None ->
  (forall dia, In dia diameter_list -> exists v, qget totals dia = Some v) ->
  makeDataTotal host column_headers column_units font_family font_size
    column_width row_height diameter_list totals y
  = Raise (KeyError (KStr RTL)).
Proof.
  intros Hh Hunit Hall. unfold makeDataTotal.
  destruct (getColumnOffset_ok column_headers column_width
              diameter_list RTL Hh) as [off Hoff].
  unfold sin, dict_in in Hh. fold (sget column_headers RTL) in Hh.
  destruct (sget column_headers RTL) as [[label total_seq]|] eqn:E;
    [|discriminate].
  destruct (negb (total_seq =? 1)%Z).
  - rewrite Hoff. cbn [rbind]. unfold captions. rewrite Hunit.
    reflexivity.
  - destruct (dia_totals_ok true diameter_list totals 0 y Hall)
      as [cells Hc].
    simpl in Hc. rewrite Hc. cbn [rbind].
    unfold captions. rewrite Hunit. reflexivity.
Qed.

(** The part of [makeTable] up to the end of the loop over the marks. *)
Lemma table_rows_ok (first_row : Z) (y_offset1 : Q) :
  let mark_reinforcements_dict :=
    getMarkReinforcementsDict (objects host) in
  exists diameter_list st,
    getUniqueDiameterList mark_reinforcements_dict = Ok diameter_list
    /\ Qnodup diameter_list
    /\ makeRows host column_headers column_units rebar_length_type
         font_family font_size column_width row_height
         mark_reinforcements_dict diameter_list first_row
         (sort_by Z.leb (keys mark_reinforcements_dict))
         {| rows := [];
            dia_total_length_dict :=
              fold_left (fun d dia => dict_set Qeq_bool d dia 0)
                diameter_list [];
            y_offset := y_offset1;
            current_row := first_row;
            console := [] |} = Ok st
    /\ rows st
       = rows_from host column_headers column_units rebar_length_type
           font_family font_size column_width row_height
           mark_reinforcements_dict diameter_list 1 y_offset1
           (sort_by Z.leb (keys mark_reinforcements_dict))
    /\ keys (dia_total_length_dict st) = diameter_list
    /\ y_offset st
       == y_offset1 + inject_Z (len mark_reinforcements_dict) * row_height
    /\ Qsum (map snd (dia_total_length_dict st))
       == Qsum (map (row_contribution column_headers rebar_length_type
                       mark_reinforcements_dict)
                  (sort_by Z.leb (keys mark_reinforcements_dict))).
Proof.
  intros mrd.
  destruct (getMarkReinforcementsDict_groups (objects host))
    as (Hnd & Hg & _ & _).
  fold mrd in Hnd, Hg.
  destruct (getUniqueDiameterList_ok mrd Hg) as (dl & Hdl & Hn & Hmem).
  exists dl.
  rewrite (init_totals_shape dl []) by exact Hn. simpl app.
  destruct (makeRows_ok host column_headers column_units rebar_length_type
              font_family font_size column_width row_height mrd dl
              first_row (sort_by Z.leb (keys mrd))
              {| rows := [];
                 dia_total_length_dict := map (fun dia => (dia, 0)) dl;
                 y_offset := y_offset1;
                 current_row := first_row;
                 console := [] |} Hn)
    as (st & new_rows & Hrun & Hrows & Hf & Hk & Hy & Hs).
  { intros m Hin. simpl dia_total_length_dict. rewrite keys_init.
    assert (Hin' : In m (keys mrd)).
    { eapply Permutation_in; [apply sort_by_perm|exact Hin]. }
    destruct (mark_dict_lookup mrd m Hg Hin') as (r & rs & Hget & Hin'').
    exists r, rs. split; [exact Hget|]. eapply Hmem. exact Hin''. }
  exists st. simpl in Hrows, Hk, Hy, Hs.
  rewrite keys_init in Hk. rewrite Qsum_zeros in Hs.
  split; [exact Hdl|]. split; [exact Hn|]. split; [exact Hrun|].
  split.
  { rewrite Hrows, Hf. cbn [current_row y_offset app].
    replace (first_row - first_row + 1)%Z with 1%Z by lia. reflexivity. }
  split; [exact Hk|]. split.
  - rewrite Hy. unfold len.
    rewrite (Permutation_length (sort_by_perm Z.leb (keys mrd))).
    unfold keys. rewrite length_map. reflexivity.
  - rewrite Hs. lra.
Qed.

Lemma makeTable_ok :
  (sin column_headers RTL = true ->
   exists unit, sget column_units RTL = Some unit) ->
  let mark_reinforcements_dict :=
    getMarkReinforcementsDict (objects host) in
  let marks := sort_by Z.leb (keys mark_reinforcements_dict) in
  exists t body y_close children,
    makeTable host column_headers column_units rebar_length_type
      font_family font_size column_width row_height = Ok t
    /\ getUniqueDiameterList mark_reinforcements_dict
       = Ok (diameters_of t)
    /\ Qnodup (diameters_of t)
    /\ keys (totals_of t) = diameters_of t
    /\ bom_table_svg t
       = g (Id "BOM_table")
           (getColumnHeadersSVG (diameters_of t) (Decimals host) 0
              column_width row_height font_family font_size column_headers
            :: body
               ++ [getSVGRectangle 0 y_close (bom_width t) row_height;
                   g (Id "BOM_data_total") children])
    /\ body
       = rows_from host column_headers column_units rebar_length_type
           font_family font_size column_width row_height
           mark_reinforcements_dict (diameters_of t) 1
           (if sin column_headers RTL
            then 0 + 2 * row_height else 0 + row_height)
           marks
    /\ bom_height t
       == (if sin column_headers RTL then 2 * row_height else row_height)
          + inject_Z (len mark_reinforcements_dict) * row_height
          + row_height + 3 * row_height
    /\ bom_width t
       = column_width
         * inject_Z (len column_headers + len (diameters_of t) - 1)
    /\ Qsum (map snd (totals_of t))
       == Qsum (map (row_contribution column_headers rebar_length_type
                       mark_reinforcements_dict) marks).
Proof.
  intros Hu mrd marks. unfold makeTable. fold mrd.
  pose proof (fun dl totals y => makeDataTotal_ok dl totals y Hu)
    as Hfooter.
  clear Hu.
  destruct (sin column_headers RTL) eqn:E;
    [destruct (table_rows_ok 3%Z (0 + 2 * row_height))
       as (dl & st & Hdl & Hn & Hrun & Hf & Hk & Hy & Hs)
    |destruct (table_rows_ok 2%Z (0 + row_height))
       as (dl & st & Hdl & Hn & Hrun & Hf & Hk & Hy & Hs)];
    fold mrd in Hdl, Hrun, Hf, Hy, Hs; fold marks in Hf, Hs;
    rewrite Hdl; cbn [rbind]; rewrite Hrun; cbn [rbind];
    (destruct (Hfooter dl (dia_total_length_dict st)
                 (y_offset st + row_height)) as [children ->];
     [intros dia Hin; apply qget_of_keys; rewrite Hk; exact Hin|]);
    cbn [rbind];
    eexists; exists (rows st), (y_offset st), children;
    (split; [reflexivity|]); cbn;
    repeat split; try assumption; try reflexivity;
    rewrite Hy; lra.
Qed.

Lemma makeTable_KeyError :
  sin column_headers RTL = true -> sget column_units RTL = None ->
  makeTable host column_headers column_units rebar_length_type
    font_family font_size column_width row_height
  = Raise (KeyError (KStr RTL)).
Proof.
  intros Hh Hunit. unfold makeTable. rewrite Hh.
  destruct (table_rows_ok 3%Z (0 + 2 * row_height))
    as (dl & st & Hdl & Hn & Hrun & Hf & Hk & Hy & Hs).
  rewrite Hdl. cbn [rbind]. rewrite Hrun. cbn [rbind].
  rewrite (makeDataTotal_KeyError dl (dia_total_length_dict st)
             (y_offset st + row_height) Hh Hunit).
  - reflexivity.
  - intros dia Hin. apply qget_of_keys. rewrite Hk. exact Hin.
Qed.
End TableFacts.

(** ** Height of the table *)

Lemma sin_true_iff {V : Type} (d : sdict V) (k : string) :
  sin d k = true <-> exists v, sget d k = Some v.
Proof.
  unfold sin, dict_in, sget. destruct (dict_get String.eqb d k).
  - split; eauto.
  - split; [discriminate|]. intros [v H]. discriminate.
Qed.

Lemma sin_false_iff {V : Type} (d : sdict V) (k : string) :
  sin d k = false <-> sget d k = None.
Proof.
  unfold sin, dict_in, sget. destruct (dict_get String.eqb d k).
  - split; discriminate.
  - split; reflexivity.
Qed.

Lemma sget_delete_hidden (column_headers : headers) (k : string) :
  (forall label, sget column_headers k <> Some (label, 0%Z)) ->
  sget (delete_hidden column_headers) k = sget column_headers k.
Proof.
  unfold sget, delete_hidden.
  induction column_headers as [|[k0 [label0 seq0]] d IH]; intros H; simpl.
  - reflexivity.
  - simpl in H. destruct (String.eqb k k0) eqn:Ek.
    + destruct (Z.eqb_spec seq0 0) as [->|Hne].
      * exfalso. exact (H label0 eq_refl).
      * simpl. rewrite Ek. reflexivity.
    + destruct (negb (seq0 =? 0)%Z); simpl; [rewrite Ek|]; apply IH; exact H.
Qed.




(** ** The unit of the total length column *)

(** C10. When the total length column is in [column_headers] and
    [column_units] has no unit for it, the run raises the [KeyError] of the
    caption of the totals, in either layout, although the displays of
    values, which test for the unit, would fall back on plain rounding. *)
Theorem missing_unit_KeyError
  (host : Host) (column_headers : headers) (column_units : units)
  (rebar_length_type font_family : string)
  (font_size column_width row_height : Q)
  (bom_left_offset bom_top_offset bom_min_right_offset
     bom_min_bottom_offset : Q)
  (bom_table_svg_max_width bom_table_svg_max_height : option Q)
  (template_file : string) (output_file : option string) :
  sin column_headers "RebarsTotalLength" = true ->
  sin column_units "RebarsTotalLength" = false ->
  fst (makeBillOfMaterialSVG host column_headers column_units
         rebar_length_type font_family font_size column_width row_height
         bom_left_offset bom_top_offset bom_min_right_offset
         bom_min_bottom_offset bom_table_svg_max_width
         bom_table_svg_max_height template_file output_file)
  = Raise (KeyError (KStr "RebarsTotalLength"))
  /\ forall q precision,
       disp column_units "RebarsTotalLength" q precision
       = Rounded q precision.
Proof.
  intros Hh Hu.
  assert (Hnone : sget column_units RTL = None).
  { apply sin_false_iff. exact Hu. }
  split.
  - unfold makeBillOfMaterialSVG.
    rewrite (makeTable_KeyError host column_headers column_units
               rebar_length_type font_family font_size column_width
               row_height Hh Hnone).
    reflexivity.
  - intros q precision. unfold disp.
    change (sget column_units "RebarsTotalLength")
      with (sget column_units RTL).
    rewrite Hnone. reflexivity.
Qed.

Lemma missing_unit_KeyError_witness :
  fst (makeBillOfMaterialSVG scenario_host scenario_headers
         [("Diameter", "mm"); ("RebarLength", "m")]%string "RealLength"
         "DejaVu Sans" 3 10 5 6 6 6 6 None None "template.svg" None)
  = Raise (KeyError (KStr "RebarsTotalLength")).
Proof.
  apply (missing_unit_KeyError scenario_host scenario_headers
           [("Diameter", "mm"); ("RebarLength", "m")]%string).
  - reflexivity.
  - reflexivity.
Defined.
(** ** The total length column *)

(** C3.  The total length of a row is the sum, over the reinforcements of
    the mark, of the multiplicity times [base_rebar_length], which is read
    once before the loop, from the first reinforcement, and only under the
    test that guards the display of the length column.  Without the key
    [RebarLength] among the headers, a mark of two bars 1000 long is drawn
    with the total 0, in its row and in the totals, where the weighted sum
    of the lengths is 2000.  With all five columns, a mark that holds two
    bars 1000 long and three bars 500 long is drawn with the total 5000,
    where the weighted sum is 3500. *)
Theorem total_length_without_length_column :
  (exists t reinforcements,
      makeTable (one_mark_host true true)
        [("Mark", ("Mark", 1%Z));
         ("RebarsTotalLength", ("Total Length in m", 2%Z))]%string
        scenario_units "RealLength" "DejaVu Sans" 3 10 5 = Ok t
      /\ texts_of (bom_table_svg t)
         = [ Str "Mark"; Str "Total Length in m"; DiaHeader 8 2;
             Int 1; Formatted 0 "m" 2 "m";
             Str "Total length in m/Diameter"; Str "Weight in Kg/m";
             Str "Total Weight in Kg/Diameter"; Formatted 0 "m" 2 "m" ]
      /\ dict_get Z.eqb
           (getMarkReinforcementsDict (objects (one_mark_host true true)))
           1%Z
         = Some reinforcements
      /\ weighted_length_sum "RealLength" reinforcements == 2000)
  /\ (exists t total reinforcements,
         makeTable
           (sample_host [bar 1 8 1000 2; bar 1 8 500 3] [] true true)
           scenario_headers scenario_units "RealLength" "DejaVu Sans" 3 10 5
         = Ok t
         /\ texts_of (bom_table_svg t)
            = [ Str "Mark"; Str "No. of Rebars"; Str "Diameter in mm";
                Str "Length in m/piece"; Str "Total Length in m";
                DiaHeader 8 2;
                Int 1; Int 5; Formatted 8 "mm" 2 "mm";
                Formatted 1000 "m" 2 "m"; Formatted total "m" 2 "m";
                Str "Total length in m/Diameter"; Str "Weight in Kg/m";
                Str "Total Weight in Kg/Diameter";
                Formatted total "m" 2 "m" ]
         /\ total == 5000
         /\ dict_get Z.eqb
              (getMarkReinforcementsDict
                 [bar 1 8 1000 2; bar 1 8 500 3]) 1%Z
            = Some reinforcements
         /\ weighted_length_sum "RealLength" reinforcements == 3500).
Proof.
  split.
  - do 2 eexists. split; [vm_compute; reflexivity|].
    split; [vm_compute; reflexivity|].
    split; vm_compute; reflexivity.
  - do 3 eexists. split; [vm_compute; reflexivity|].
    split; [vm_compute; reflexivity|].
    split; [vm_compute; reflexivity|].
    split; vm_compute; reflexivity.
Qed.

(** ** Hidden columns *)

(** The header leaves out a column of order 0. *)
Lemma delete_hidden_no_zero (column_headers : headers) (key label : string) :
  ~ In (key, (label, 0%Z)) (delete_hidden column_headers).
Proof.
  unfold delete_hidden. intros H. apply filter_In in H.
  destruct H as [_ H]. simpl in H. discriminate.
Qed.

(** C1, at a concrete input.  With the mark column hidden by the order 0 and
    one visible column, the header has the visible column only, but the body
    row still has the cell of the mark, one column width left of the origin,
    and the width of the table is that of two columns. *)
Theorem hidden_column_still_drawn :
  exists t,
    makeTable (one_mark_host true true) hidden_mark_headers [] "RealLength"
      "DejaVu Sans" 3 10 5 = Ok t
    /\ bom_table_svg t
       = g (Id "BOM_table")
           [ g (Id "BOM_column_headers")
               [getSVGDataCell (Str "No. of Rebars") 0 0 10 5 "DejaVu Sans" 3];
             g (RowId 1)
               [getSVGDataCell (Int 1) (-10) 5 10 5 "DejaVu Sans" 3;
                getSVGDataCell (Int 2) 0 5 10 5 "DejaVu Sans" 3];
             getSVGRectangle 0 10 20 5;
             g (Id "BOM_data_total") [] ]
    /\ bom_width t = 20.
Proof.
  eexists. split; [vm_compute; reflexivity|]. split.
  - vm_compute. reflexivity.
  - vm_compute. reflexivity.
Qed.

(** ** Diameters without a weight *)

(** In the layout where the total length column is not the first one, a
    diameter without a weight has two empty rectangles. *)
Lemma dia_total_not_first_placeholders
  (host : Host) (column_units : units) (font_family : string)
  (font_size column_width row_height : Q) (totals : qdict)
  (rebar_total_length_offset y : Q) (i : nat) (dia total : Q) :
  qget totals dia = Some total ->
  qget (DIA_WEIGHT_MAP host) dia = None ->
  exists total_cell,
    dia_total_not_first host column_units font_family font_size column_width
      row_height totals rebar_total_length_offset y (i, dia)
    = Ok [ total_cell;
           getSVGRectangle
             (rebar_total_length_offset
              + inject_Z (Z.of_nat i) * column_width)
             (y + row_height) column_width row_height;
           getSVGRectangle
             (rebar_total_length_offset
              + inject_Z (Z.of_nat i) * column_width)
             (y + 2 * row_height) column_width row_height ].
Proof.
  intros Ht Hw. unfold dia_total_not_first. rewrite Ht, Hw. eauto.
Qed.

(** In the layout where it is the first one, such a diameter has the cell
    of its total length and nothing else. *)
Lemma dia_total_first_no_placeholder
  (host : Host) (column_units : units) (font_family : string)
  (font_size column_width row_height : Q) (totals : qdict)
  (y : Q) (i : nat) (dia total : Q) :
  qget totals dia = Some total ->
  qget (DIA_WEIGHT_MAP host) dia = None ->
  exists total_cell,
    dia_total_first host column_units font_family font_size column_width
      row_height totals y (i, dia)
    = Ok [total_cell].
Proof.
  intros Ht Hw. unfold dia_total_first. rewrite Ht, Hw. eauto.
Qed.

(** C6, at a concrete input.  One mark of diameter 8 and an empty weight
    table.  With the total length column last, the table has, beside the
    closing rectangle, the two placeholders of the diameter in the rows of
    the weights, at rows 25 and 30 under the column at 20; with the total
    length column first it has the closing rectangle only, the two cells of
    the diameter being left out. *)
Theorem first_column_totals_omit_placeholders :
  (exists t,
      makeTable (one_mark_host true true) total_last_headers scenario_units
        "RealLength" "DejaVu Sans" 3 10 5 = Ok t
      /\ placeholders_of (bom_table_svg t)
         = [ getSVGRectangle 0 15 30 5;
             getSVGRectangle 20 25 10 5;
             getSVGRectangle 20 30 10 5 ])
  /\ (exists t,
         makeTable (one_mark_host true true) total_first_headers
           scenario_units "RealLength" "DejaVu Sans" 3 10 5 = Ok t
         /\ placeholders_of (bom_table_svg t)
            = [getSVGRectangle 0 15 30 5]).
Proof.
  split.
  - eexists. split; [vm_compute; reflexivity|]. vm_compute. reflexivity.
  - eexists. split; [vm_compute; reflexivity|]. vm_compute. reflexivity.
Qed.

(** ** Reading the template and writing the sheet *)

(** When [open] fails, the handler of the write fails in its turn. *)
Lemma write_sheet_open_fails (host : Host) (output_file : string)
  (svg_sheet : markup) :
  open_for_writing host output_file = false ->
  write_sheet host output_file svg_sheet
  = (Raise (UnboundLocalError "svg_output_file"), []).
Proof.
  intros H. unfold write_sheet. rewrite H. reflexivity.
Qed.

(** When [open] succeeds and the write fails, the file is left as [open]
    made it and the error is printed. *)
Lemma write_sheet_write_fails (host : Host) (output_file : string)
  (svg_sheet : markup) :
  open_for_writing host output_file = true ->
  write_succeeds host output_file = false ->
  write_sheet host output_file svg_sheet
  = (Ok tt,
     [OpenFile output_file;
      PrintError ("Error writing svg to file "
                  ++ str_of_file host output_file ++ nl)]).
Proof.
  intros Ho Hw. unfold write_sheet. rewrite Ho, Hw. reflexivity.
Qed.

(** C7, at concrete inputs.  With a template that cannot be read and no
    output file, the run prints the error and returns the document; with an
    output file that cannot be opened, the run ends with the
    [UnboundLocalError] raised in the handler of the write. *)
Theorem unwritable_output_raises :
  (exists document trace,
      makeBillOfMaterialSVG (one_mark_host false true) scenario_headers
        scenario_units "RealLength" "DejaVu Sans" 3 10 5 6 6 6 6 None None
        "template.svg" None = (Ok (Document document), trace)
      /\ In (PrintError ("Error reading template file template.svg" ++ nl))
           trace)
  /\ fst (makeBillOfMaterialSVG (one_mark_host true false) scenario_headers
            scenario_units "RealLength" "DejaVu Sans" 3 10 5 6 6 6 6 None
            None "template.svg" (Some "bom.svg"%string))
     = Raise (UnboundLocalError "svg_output_file").
Proof.
  split.
  - do 2 eexists. split; [vm_compute; reflexivity|].
    right. left. reflexivity.
  - vm_compute. reflexivity.
Qed.

(** * Further properties *)

(** ** Sorting *)

Section SortSorted.
Context {A : Type} (leb : A -> A -> bool).
Hypothesis leb_total : forall x y, leb x y = true \/ leb y x = true.
Hypothesis leb_trans :
  forall x y z, leb x y = true -> leb y z = true -> leb x z = true.

Lemma insert_sorted_sorted (x : A) (l : list A) :
  StronglySorted (fun a b => leb a b = true) l ->
  StronglySorted (fun a b => leb a b = true) (insert_sorted leb x l).
Proof.
  induction l as [|y l IH]; intros Hs; simpl.
  - constructor; constructor.
  - apply StronglySorted_inv in Hs. destruct Hs as [Hs Hy].
    destruct (leb y x) eqn:E.
    + constructor; [apply IH; exact Hs|].
      apply Forall_forall. intros z Hz.
      apply (Permutation_in z (insert_sorted_perm leb x l)) in Hz.
      destruct Hz as [<-|Hz]; [exact E|].
      exact (proj1 (Forall_forall _ _) Hy z Hz).
    + assert (Hxy : leb x y = true).
      { destruct (leb_total x y) as [H|H]; [exact H|congruence]. }
      constructor; [constructor; assumption|].
      constructor; [exact Hxy|].
      apply Forall_forall. intros z Hz.
      apply leb_trans with y; [exact Hxy|].
      exact (proj1 (Forall_forall _ _) Hy z Hz).
Qed.

Lemma fold_insert_sorted (l acc : list A) :
  StronglySorted (fun a b => leb a b = true) acc ->
  StronglySorted (fun a b => leb a b = true)
    (fold_left (fun acc x => insert_sorted leb x acc) l acc).
Proof.
  revert acc. induction l as [|x l IH]; intros acc Hs; simpl.
  - exact Hs.
  - apply IH. apply insert_sorted_sorted. exact Hs.
Qed.

Lemma sort_by_sorted (l : list A) :
  StronglySorted (fun a b => leb a b = true) (sort_by leb l).
Proof. apply fold_insert_sorted. constructor. Qed.
End SortSorted.

Lemma Qle_bool_total (x y : Q) : Qle_bool x y = true \/ Qle_bool y x = true.
Proof.
  rewrite !Qle_bool_iff. destruct (Qlt_le_dec x y); [left|right]; lra.
Qed.

Lemma Qle_bool_trans (x y z : Q) :
  Qle_bool x y = true -> Qle_bool y z = true -> Qle_bool x z = true.
Proof. rewrite !Qle_bool_iff. lra. Qed.

Lemma sorted_nodup_strict (l : list Q) :
  StronglySorted (fun a b => Qle_bool a b = true) l -> Qnodup l ->
  StronglySorted Qlt l.
Proof.
  induction l as [|x l IH]; intros Hs Hn.
  - constructor.
  - apply StronglySorted_inv in Hs. destruct Hs as [Hs Hx].
    destruct Hn as [Hm Hn].
    constructor; [apply IH; assumption|].
    apply Forall_forall. intros y Hy.
    pose proof (proj1 (Forall_forall _ _) Hx y Hy) as Hle.
    apply Qle_bool_iff in Hle.
    pose proof (proj1 (Qmem_false_iff x l) Hm y Hy) as Hne.
    destruct (Qlt_le_dec x y) as [H|H]; [exact H|].
    exfalso. apply Hne. lra.
Qed.

(** ** The dictionary of marks *)

Lemma group_of_dict_append (d : mark_dict) (k m : Z) (x : Reinforcement) :
  group_of (dict_append d k x) m
  = if Z.eqb m k then group_of d k ++ [x] else group_of d m.
Proof.
  unfold group_of. induction d as [|[k0 l] d IH]; simpl.
  - destruct (Z.eqb m k); reflexivity.
  - destruct (Z.eqb_spec k k0) as [->|Hne]; simpl.
    + destruct (Z.eqb_spec m k0) as [->|Hm]; reflexivity.
    + destruct (Z.eqb_spec m k0) as [->|Hm].
      * destruct (Z.eqb_spec k0 k) as [->|_]; [congruence|reflexivity].
      * exact IH.
Qed.

Lemma group_of_fold (objects_list : list DocObject) (acc : mark_dict)
  (m : Z) :
  group_of
    (fold_left
       (fun mark_reinforcements_dict item =>
          match obj_BaseRebar item, obj_IfcType item with
          | Some base_rebar, Some ifc =>
              if String.eqb ifc "Reinforcing Bar" then
                let mark_number :=
                  match MarkNumber base_rebar with
                  | None => 0%Z
                  | Some m => m
                  end in
                dict_append mark_reinforcements_dict mark_number
                  {| BaseRebar := base_rebar; Amount := obj_Amount item |}
              else mark_reinforcements_dict
          | _, _ => mark_reinforcements_dict
          end)
       objects_list acc) m
  = group_of acc m ++ reinforcements_of_mark m objects_list.
Proof.
  revert acc. induction objects_list as [|item l IH]; intros acc.
  - simpl. rewrite app_nil_r. reflexivity.
  - simpl fold_left. rewrite IH.
    unfold reinforcements_of_mark at 2. simpl flat_map.
    fold (reinforcements_of_mark m l). unfold as_reinforcement.
    destruct (obj_BaseRebar item) as [base_rebar|];
      [destruct (obj_IfcType item) as [ifc|];
       [destruct (String.eqb ifc "Reinforcing Bar")|]|];
      try reflexivity.
    cbv zeta. rewrite group_of_dict_append.
    destruct (Z.eqb_spec m match MarkNumber base_rebar with
                           | Some m0 => m0
                           | None => 0%Z
                           end) as [->|Hne].
    + rewrite <- app_assoc. reflexivity.
    + reflexivity.
Qed.

Lemma dict_get_group_of (d : mark_dict) (m : Z) :
  groups_nonempty d ->
  dict_get Z.eqb d m
  = match group_of d m with
    | [] => None
    | l => Some l
    end.
Proof.
  unfold groups_nonempty, group_of.
  induction d as [|[k l] d IH]; simpl; intros Hg.
  - reflexivity.
  - inversion Hg as [|? ? Hl Hd]; subst. simpl in Hl.
    destruct (Z.eqb m k).
    + destruct l; [congruence|reflexivity].
    + apply IH. exact Hd.
Qed.

(** X1.  Looking a mark up in the dictionary gives the reinforcing bars of
    the document with that mark, in document order; a mark that no bar has
    is not a key. *)
Theorem getMarkReinforcementsDict_lookup
  (objects_list : list DocObject) (mark_number : Z) :
  dict_get Z.eqb (getMarkReinforcementsDict objects_list) mark_number
  = match reinforcements_of_mark mark_number objects_list with
    | [] => None
    | l => Some l
    end.
Proof.
  destruct (getMarkReinforcementsDict_groups objects_list) as (_ & Hg & _).
  rewrite (dict_get_group_of _ _ Hg).
  unfold getMarkReinforcementsDict. cbv zeta.
  rewrite group_of_fold. reflexivity.
Qed.

(** X2.  The dictionary has one key per distinct mark of the reinforcing
    bars, each once, and no key with an empty list. *)
Theorem getMarkReinforcementsDict_keys (objects_list : list DocObject) :
  let d := getMarkReinforcementsDict objects_list in
  NoDup (keys d)
  /\ (forall m, In m (keys d) <-> In m (marks_of objects_list))
  /\ len d = distinct_mark_count objects_list
  /\ (forall m l, In (m, l) d -> l <> []).
Proof.
  cbv zeta.
  destruct (getMarkReinforcementsDict_groups objects_list)
    as (Hn & Hg & Hk & Hl).
  repeat split; try assumption; try apply Hk.
  intros m l Hin.
  exact (proj1 (Forall_forall _ _) Hg (m, l) Hin).
Qed.

(** ** The list of diameters *)

Lemma unique_diameters_from (items : mark_dict) (acc dl : list Q) :
  unique_diameters items acc = Ok dl ->
  forall x, In x dl ->
            In x acc
            \/ exists k r rs, In (k, r :: rs) items
                              /\ x = Diameter (BaseRebar r).
Proof.
  revert acc. induction items as [|[k l] items IH]; intros acc H x Hx.
  - simpl in H. injection H as <-. left. exact Hx.
  - simpl in H. destruct l as [|r rs]; [discriminate|]. simpl in H.
    destruct (existsb (Qeq_bool (Diameter (BaseRebar r))) acc).
    + destruct (IH acc H x Hx) as [Ha|(k' & r' & rs' & Hin & Heq)].
      * left. exact Ha.
      * right. exists k', r', rs'. split; [right; exact Hin|exact Heq].
    + destruct (IH _ H x Hx) as [Ha|(k' & r' & rs' & Hin & Heq)].
      * apply in_app_or in Ha. destruct Ha as [Ha|[<-|[]]].
        -- left. exact Ha.
        -- right. exists k, r, rs. split; [left; reflexivity|reflexivity].
      * right. exists k', r', rs'. split; [right; exact Hin|exact Heq].
Qed.

(** X3.  On a dictionary without an empty group the list of diameters is
    strictly ascending, so without duplicates; each of its entries is the
    diameter of the first reinforcement of a mark, and the diameter of the
    first reinforcement of every mark is in it. *)
Theorem getUniqueDiameterList_ascending (d : mark_dict) :
  groups_nonempty d ->
  exists dl,
    getUniqueDiameterList d = Ok dl
    /\ StronglySorted Qlt dl
    /\ (forall x, In x dl ->
                  exists k r rs, In (k, r :: rs) d
                                 /\ x = Diameter (BaseRebar r))
    /\ (forall k r rs, In (k, r :: rs) d ->
                       Qmem (Diameter (BaseRebar r)) dl = true).
Proof.
  intros Hg.
  destruct (getUniqueDiameterList_ok d Hg) as (dl & Hdl & Hn & Hmem).
  exists dl. split; [exact Hdl|]. split; [|split; [|exact Hmem]].
  - unfold getUniqueDiameterList in Hdl.
    destruct (unique_diameters d []) as [dl0|e]; [|discriminate].
    simpl in Hdl. injection Hdl as <-.
    apply sorted_nodup_strict; [|exact Hn].
    apply sort_by_sorted; [apply Qle_bool_total|apply Qle_bool_trans].
  - intros x Hx. unfold getUniqueDiameterList in Hdl.
    destruct (unique_diameters d []) as [dl0|e] eqn:E; [|discriminate].
    simpl in Hdl. injection Hdl as <-.
    apply (Permutation_in x (sort_by_perm Qle_bool dl0)) in Hx.
    destruct (unique_diameters_from d [] dl0 E x Hx) as [[]|H].
    exact H.
Qed.

Lemma getUniqueDiameterList_ascending_witness :
  exists dl,
    getUniqueDiameterList sample_mark_dict = Ok dl /\ StronglySorted Qlt dl.
Proof.
  destruct (getUniqueDiameterList_ascending sample_mark_dict)
    as (dl & Hdl & Hs & _).
  - repeat constructor; discriminate.
  - exists dl. split; assumption.
Defined.

Lemma unique_diameters_empty_group (d : mark_dict) (acc : list Q) (k : Z) :
  In (k, []) d -> unique_diameters d acc = Raise IndexError.
Proof.
  revert acc. induction d as [|[k0 l] d IH]; intros acc Hin.
  - destruct Hin.
  - simpl. destruct l as [|r rs]; [reflexivity|].
    destruct Hin as [H|H]; [discriminate|]. simpl.
    destruct (existsb (Qeq_bool (Diameter (BaseRebar r))) acc);
      apply IH; exact H.
Qed.

(** X4.  A mark whose list of reinforcements is empty makes
    [getUniqueDiameterList] raise [IndexError], whatever the other marks;
    the empty dictionary gives the empty list. *)
Theorem getUniqueDiameterList_empty_group (d : mark_dict) (k : Z) :
  (In (k, []) d -> getUniqueDiameterList d = Raise IndexError)
  /\ getUniqueDiameterList [] = Ok [].
Proof.
  split; [|reflexivity].
  intros Hin. unfold getUniqueDiameterList.
  rewrite (unique_diameters_empty_group d [] k Hin). reflexivity.
Qed.

Lemma getUniqueDiameterList_empty_group_witness :
  getUniqueDiameterList
    [(1%Z, [sample_reinforcement 8 2]); (2%Z, [])] = Raise IndexError.
Proof.
  apply (proj1 (getUniqueDiameterList_empty_group
                  [(1%Z, [sample_reinforcement 8 2]); (2%Z, [])] 2%Z)).
  right. left. reflexivity.
Defined.

(** ** The sharp edged length, error case *)

(** X5.  [getRebarSharpEdgedLength] prints on the error console exactly when
    the base has no authored length and is not a sketch; it then prints the
    one message and returns 0. *)
Theorem getRebarSharpEdgedLength_unmeasurable (rebar : BaseRebarT) :
  (base_Length (Base rebar) = None /\ isSketch (Base rebar) = false
   -> getRebarSharpEdgedLength rebar = (0, [cannot_calculate]))
  /\ (snd (getRebarSharpEdgedLength rebar) <> []
      -> base_Length (Base rebar) = None /\ isSketch (Base rebar) = false).
Proof.
  unfold getRebarSharpEdgedLength. split.
  - intros [Hl Hs]. rewrite Hl, Hs. reflexivity.
  - destruct (base_Length (Base rebar)) as [l|].
    + destruct (FilletRadius (Base rebar)) as [r|];
        [destruct (Qeq_bool r 0)|]; simpl; intros H; congruence.
    + destruct (isSketch (Base rebar)); simpl; intros H;
        [congruence|split; reflexivity].
Qed.

Lemma getRebarSharpEdgedLength_unmeasurable_witness :
  getRebarSharpEdgedLength
    {| MarkNumber := None; Diameter := 8; Length := 100;
       Base := {| base_Length := None; FilletRadius := None;
                  Closed := false; Edges := []; isSketch := false;
                  Geometry := [] |} |}
  = (0, [cannot_calculate]).
Proof.
  apply (proj1 (getRebarSharpEdgedLength_unmeasurable _)).
  split; reflexivity.
Defined.

(** ** The scaling factor, further *)

(** X6.  [getBOMScalingFactor] raises exactly when scaling is triggered and
    the natural width or height is zero, and then it is the
    [ZeroDivisionError] of the quotient. *)
Theorem getBOMScalingFactor_ZeroDivisionError
  (bw bh lo to tw th ro bo : Q) (mw mh : option Q) (e : exn) :
  getBOMScalingFactor bw bh lo to tw th ro bo mw mh = Raise e
  <-> e = ZeroDivisionError
      /\ scale_flag bw bh lo to tw th ro bo mw mh = true
      /\ (bw == 0 \/ bh == 0).
Proof.
  unfold getBOMScalingFactor, truediv.
  destruct (scale_flag bw bh lo to tw th ro bo mw mh); simpl.
  2:{ split; [discriminate|]. intros (_ & H & _). discriminate. }
  (destruct (Qeq_bool bw 0) eqn:Ew;
   [apply Qeq_bool_eq in Ew|apply Qeq_bool_neq in Ew]);
    (destruct (Qeq_bool bh 0) eqn:Eh;
     [apply Qeq_bool_eq in Eh|apply Qeq_bool_neq in Eh]);
    destruct mw as [m|]; destruct mh as [m'|]; simpl;
    try destruct (Qeq_bool m 0); try destruct (Qeq_bool m' 0); simpl;
    (split;
     [intros H; try discriminate H; injection H as <-; auto
     |intros (-> & _ & [Hz|Hz]); try reflexivity; contradiction]).
Qed.

(** ** The header and the offsets of the columns *)

Lemma Qsum_perm (l l' : list Q) : Permutation l l' -> Qsum l == Qsum l'.
Proof.
  induction 1 as [|x l l' _ IH|x y l|l l' l'' _ IH1 _ IH2].
  - reflexivity.
  - rewrite !Qsum_cons, IH. reflexivity.
  - rewrite !Qsum_cons. lra.
  - rewrite IH1. exact IH2.
Qed.

Lemma sorted_perm_eq (l l' : list Z) :
  StronglySorted Z.le l -> StronglySorted Z.le l' -> Permutation l l' ->
  l = l'.
Proof.
  revert l'. induction l as [|x l IH]; intros l' Hs Hs' HP.
  - apply Permutation_nil in HP. congruence.
  - destruct l' as [|y l'].
    + apply Permutation_sym, Permutation_nil in HP. discriminate.
    + apply StronglySorted_inv in Hs. destruct Hs as [Hs Hx].
      apply StronglySorted_inv in Hs'. destruct Hs' as [Hs' Hy].
      assert (Hxy : x = y).
      { assert (Hin : In x (y :: l')).
        { eapply Permutation_in; [exact HP|left; reflexivity]. }
        assert (Hin' : In y (x :: l)).
        { eapply Permutation_in; [apply Permutation_sym; exact HP|].
          left. reflexivity. }
        destruct Hin as [->|Hin]; [reflexivity|].
        destruct Hin' as [->|Hin']; [reflexivity|].
        pose proof (proj1 (Forall_forall _ _) Hy x Hin).
        pose proof (proj1 (Forall_forall _ _) Hx y Hin').
        lia. }
      subst y. f_equal. apply IH; try assumption.
      eapply Permutation_cons_inv. exact HP.
Qed.

Lemma sorted_seq (start n : nat) :
  StronglySorted Z.le (map Z.of_nat (seq start n)).
Proof.
  revert start. induction n as [|n IH]; intros start; simpl.
  - constructor.
  - constructor; [apply IH|].
    apply Forall_forall. intros z Hz. apply in_map_iff in Hz.
    destruct Hz as (k & <- & Hk). apply in_seq in Hk. lia.
Qed.

Lemma sorted_map {A : Type} (f : A -> Z) (l : list A) :
  StronglySorted (fun a b => (f a <=? f b)%Z = true) l ->
  StronglySorted Z.le (map f l).
Proof.
  induction 1 as [|x l _ IH Hx]; simpl.
  - constructor.
  - constructor; [exact IH|].
    apply Forall_forall. intros z Hz. apply in_map_iff in Hz.
    destruct Hz as (a & <- & Ha).
    apply Z.leb_le. exact (proj1 (Forall_forall _ _) Hx a Ha).
Qed.

Lemma sorted_headers_perm (column_headers : headers) :
  Permutation (sorted_headers column_headers) column_headers.
Proof. apply sort_by_perm. Qed.

(** With the visible orders 1, 2, ..., the sorted headers have these orders
    in turn. *)
Lemma sorted_orders (column_headers : headers) :
  orders_consecutive column_headers ->
  map order_of (sorted_headers (delete_hidden column_headers))
  = map Z.of_nat
      (seq 1 (List.length (sorted_headers (delete_hidden column_headers)))).
Proof.
  intros Hc.
  rewrite (Permutation_length
             (sorted_headers_perm (delete_hidden column_headers))).
  apply sorted_perm_eq.
  - apply (sorted_map order_of). apply sort_by_sorted.
    + intros a b. rewrite !Z.leb_le. lia.
    + intros a b c. rewrite !Z.leb_le. lia.
  - apply sorted_seq.
  - eapply Permutation_trans; [|exact Hc].
    apply Permutation_map. apply sorted_headers_perm.
Qed.

Lemma app_eq_length {A : Type} (l1 l1' l2 l2' : list A) :
  List.length l1 = List.length l1' -> l1 ++ l2 = l1' ++ l2' ->
  l1 = l1' /\ l2 = l2'.
Proof.
  revert l1'. induction l1 as [|x l1 IH]; intros [|y l1'] Hl H;
    try discriminate.
  - auto.
  - simpl in H. injection H as -> H. injection Hl as Hl.
    destruct (IH l1' Hl H) as [-> ->]. auto.
Qed.

(** In a list whose orders are 1, 2, ..., the entry after [pre] has order
    [length pre + 1], the entries of [pre] have smaller orders and the
    later ones larger orders. *)
Lemma orders_split (pre post : headers) (e : string * (string * Z)) :
  map order_of (pre ++ e :: post)
  = map Z.of_nat (seq 1 (List.length (pre ++ e :: post))) ->
  order_of e = (len pre + 1)%Z
  /\ (forall x, In x pre -> (order_of x < order_of e)%Z)
  /\ (forall x, In x post -> (order_of e < order_of x)%Z).
Proof.
  intros H. rewrite length_app in H. simpl List.length in H.
  rewrite seq_app, !map_app in H. simpl in H.
  apply app_eq_length in H.
  2:{ rewrite !length_map, length_seq. reflexivity. }
  destruct H as [Hpre H]. injection H as He Hpost.
  unfold len. split; [lia|]. split.
  - intros x Hx. apply (in_map order_of) in Hx. rewrite Hpre in Hx.
    apply in_map_iff in Hx. destruct Hx as (k & <- & Hk).
    apply in_seq in Hk. lia.
  - intros x Hx. apply (in_map order_of) in Hx. rewrite Hpost in Hx.
    apply in_map_iff in Hx. destruct Hx as (k & <- & Hk).
    apply in_seq in Hk. lia.
Qed.

Lemma sget_In {V : Type} (d : sdict V) (k : string) (v : V) :
  sget d k = Some v -> In (k, v) d.
Proof.
  unfold sget. induction d as [|[k0 v0] d IH]; simpl.
  - discriminate.
  - destruct (String.eqb_spec k k0) as [->|Hne].
    + intros H. injection H as ->. left. reflexivity.
    + intros H. right. apply IH. exact H.
Qed.

Lemma In_sget {V : Type} (d : sdict V) (k : string) (v : V) :
  NoDup (keys d) -> In (k, v) d -> sget d k = Some v.
Proof.
  unfold sget, keys. induction d as [|[k0 v0] d IH]; simpl; intros Hn Hin.
  - contradiction.
  - inversion Hn as [|? ? Hk Hd]; subst.
    destruct Hin as [H|H].
    + injection H as -> ->. rewrite String.eqb_refl. reflexivity.
    + destruct (String.eqb_spec k k0) as [->|Hne].
      * exfalso. apply Hk. apply (in_map fst) in H. exact H.
      * apply IH; assumption.
Qed.

Section HeaderFacts.
Variables (diameter_list : list Q) (dia_precision : Z)
  (y_offset column_width row_height : Q)
  (font_family : string) (font_size : Q).

Lemma dia_header_offset (cells : list svg) (off : Q) (l : list Q) :
  snd (fold_left
         (dia_header_step dia_precision y_offset column_width row_height
            font_family font_size) l (cells, off))
  == off + column_width * inject_Z (len l).
Proof.
  revert cells off. induction l as [|dia l IH]; intros cells off.
  - simpl. unfold len. simpl. change (inject_Z 0) with 0. lra.
  - cbn [fold_left].
    destruct (dia_header_step dia_precision y_offset column_width
                row_height font_family font_size (cells, off) dia)
      as [cells' off'] eqn:E.
    unfold dia_header_step in E. injection E as <- <-.
    rewrite IH. unfold len. simpl List.length. rewrite Nat2Z.inj_succ.
    unfold Z.succ. rewrite inject_Z_plus. change (inject_Z 1) with 1. lra.
Qed.

(** Each turn of the header loop draws its first cell at the current offset
    and moves the offset right by the width of the column. *)
Lemma header_step_offset (height : Q) (children : list svg) (off : Q)
  (entry : string * (string * Z)) :
  snd (header_step diameter_list dia_precision y_offset column_width
         row_height font_family font_size height (children, off) entry)
  == off + header_width column_width diameter_list entry
  /\ exists width cell_height rest,
       fst (header_step diameter_list dia_precision y_offset column_width
              row_height font_family font_size height (children, off) entry)
       = children
         ++ getSVGDataCell (Str (fst (snd entry))) off y_offset width
              cell_height font_family font_size :: rest.
Proof.
  unfold header_step, header_width, is_total.
  destruct (String.eqb (fst entry) "RebarsTotalLength"); simpl negb;
    cbv iota.
  - pose proof (dia_header_offset [] off diameter_list) as Hd.
    destruct (fold_left _ diameter_list ([], off)) as [dia_cells off'].
    simpl in Hd. simpl. split; [rewrite Hd; lra|]. eauto.
  - simpl. split; [lra|]. eauto.
Qed.

Lemma header_offset_after (height : Q) (l : headers) (children : list svg)
  (off : Q) :
  snd (fold_left
         (header_step diameter_list dia_precision y_offset column_width
            row_height font_family font_size height) l (children, off))
  == off + Qsum (map (header_width column_width diameter_list) l).
Proof.
  revert children off. induction l as [|e l IH]; intros children off.
  - simpl. unfold Qsum. simpl. lra.
  - cbn [fold_left].
    destruct (header_step_offset height children off e) as [Hs _].
    destruct (header_step diameter_list dia_precision y_offset column_width
                row_height font_family font_size height (children, off) e)
      as [children' off'].
    simpl in Hs. rewrite IH. simpl map. rewrite Qsum_cons, Hs. lra.
Qed.
End HeaderFacts.

Lemma plain_widths (column_width : Q) (diameter_list : list Q)
  (l : headers) :
  (forall x, In x l -> is_total x = false) ->
  Qsum (map (header_width column_width diameter_list) l)
  == column_width * inject_Z (len l).
Proof.
  induction l as [|e l IH]; intros H.
  - unfold len, Qsum. simpl. change (inject_Z 0) with 0. lra.
  - simpl map. rewrite Qsum_cons, IH.
    + unfold header_width. rewrite (H e (or_introl eq_refl)).
      unfold len. simpl List.length. rewrite Nat2Z.inj_succ.
      unfold Z.succ. rewrite inject_Z_plus. change (inject_Z 1) with 1. lra.
    + intros x Hx. apply H. right. exact Hx.
Qed.

(** Hiding columns keeps the keys distinct. *)
Lemma delete_hidden_keys (column_headers : headers) :
  NoDup (keys column_headers) -> NoDup (keys (delete_hidden column_headers)).
Proof.
  unfold keys, delete_hidden.
  induction column_headers as [|kv rest IH]; cbn [map filter]; intros Hn.
  - constructor.
  - apply NoDup_cons_iff in Hn. destruct Hn as [Hkv Hrest].
    destruct (negb (snd (snd kv) =? 0)%Z); [|exact (IH Hrest)].
    cbn [map]. constructor; [|exact (IH Hrest)].
    intros Hin. apply Hkv. apply in_map_iff in Hin.
    destruct Hin as (kv' & Hk & Hin). apply filter_In in Hin.
    apply in_map_iff. exists kv'. split; [exact Hk|exact (proj1 Hin)].
Qed.

Lemma visible_sorted_facts (column_headers : headers) :
  NoDup (keys column_headers) ->
  NoDup (sorted_headers (delete_hidden column_headers))
  /\ forall x, In x (sorted_headers (delete_hidden column_headers))
               <-> In x column_headers /\ order_of x <> 0%Z.
Proof.
  intros Hn. split.
  - apply (NoDup_map_inv fst).
    eapply Permutation_NoDup.
    + apply Permutation_map. apply Permutation_sym.
      apply sorted_headers_perm.
    + apply delete_hidden_keys. exact Hn.
  - intros x. split.
    + intros H. apply (Permutation_in x (sorted_headers_perm _)) in H.
      apply filter_In in H. destruct H as [H1 H2]. split; [exact H1|].
      apply negb_true_iff in H2. apply Z.eqb_neq in H2. exact H2.
    + intros [H1 H2].
      apply (Permutation_in x (Permutation_sym (sorted_headers_perm _))).
      apply filter_In. split; [exact H1|].
      apply negb_true_iff. apply Z.eqb_neq. exact H2.
Qed.

Lemma total_entry_unique (column_headers : headers)
  (v : string * Z) (x : string * (string * Z)) :
  NoDup (keys column_headers) -> sget column_headers RTL = Some v ->
  In x column_headers -> is_total x = true -> x = (RTL, v).
Proof.
  intros Hn Hv Hin Ht. destruct x as [k v']. unfold is_total in Ht.
  simpl in Ht. apply String.eqb_eq in Ht. subst k.
  pose proof (In_sget column_headers _ v' Hn Hin) as H.
  change (sget column_headers RTL = Some v') in H.
  rewrite Hv in H. injection H as <-. reflexivity.
Qed.

(** The widths of a list of columns with the total length column once in
    it. *)
Lemma widths_with_total (column_width : Q) (diameter_list : list Q)
  (l : headers) (r : string * (string * Z)) :
  NoDup l -> In r l -> is_total r = true ->
  (forall x, In x l -> is_total x = true -> x = r) ->
  Qsum (map (header_width column_width diameter_list) l)
  == column_width * inject_Z (len l - 1)
     + column_width * inject_Z (len diameter_list).
Proof.
  intros Hn Hin Hr Hu.
  apply in_split in Hin. destruct Hin as (p1 & p2 & ->).
  pose proof (NoDup_remove_2 _ _ _ Hn) as Hnot.
  assert (Hplain : forall p, (forall x, In x p -> In x (p1 ++ p2)) ->
                             forall x, In x p -> is_total x = false).
  { intros p Hp x Hx. destruct (is_total x) eqn:E; [|reflexivity].
    exfalso. apply Hnot.
    rewrite <- (Hu x); [apply Hp; exact Hx| |exact E].
    specialize (Hp x Hx). apply in_app_or in Hp. apply in_or_app.
    destruct Hp as [Hp|Hp]; [left; exact Hp|right; right; exact Hp]. }
  rewrite map_app, Qsum_app. simpl map. rewrite Qsum_cons.
  rewrite (plain_widths column_width diameter_list p1).
  2:{ apply Hplain. intros x Hx. apply in_or_app. left. exact Hx. }
  rewrite (plain_widths column_width diameter_list p2).
  2:{ apply Hplain. intros x Hx. apply in_or_app. right. exact Hx. }
  unfold header_width. rewrite Hr.
  replace (len (p1 ++ r :: p2) - 1)%Z with (len p1 + len p2)%Z.
  - rewrite inject_Z_plus. lra.
  - unfold len. rewrite length_app. simpl List.length. lia.
Qed.



Lemma filter_all {A : Type} (p : A -> bool) (l : list A) :
  (forall x, In x l -> p x = true) -> filter p l = l.
Proof.
  induction l as [|x l IH]; simpl; intros H.
  - reflexivity.
  - rewrite (H x (or_introl eq_refl)). f_equal.
    apply IH. intros y Hy. apply H. right. exact Hy.
Qed.



(** ** The texts of the header *)

Lemma texts_of_cell (d : data) (x y width height : Q) (font_family : string)
  (font_size : Q) :
  texts_of (getSVGDataCell d x y width height font_family font_size) = [d].
Proof. reflexivity. Qed.

Lemma flat_map_snoc {A B : Type} (f : A -> list B) (l : list A) (x : A) :
  flat_map f (l ++ [x]) = flat_map f l ++ f x.
Proof.
  rewrite flat_map_app. simpl. rewrite app_nil_r. reflexivity.
Qed.

Section HeaderTexts.
Variables (diameter_list : list Q) (dia_precision : Z)
  (y_offset column_width row_height : Q)
  (font_family : string) (font_size : Q).

Lemma dia_header_texts (l : list Q) (cells : list svg) (off : Q) :
  flat_map texts_of
    (fst (fold_left
            (dia_header_step dia_precision y_offset column_width row_height
               font_family font_size) l (cells, off)))
  = flat_map texts_of cells
    ++ map (fun dia => DiaHeader dia dia_precision) l.
Proof.
  revert cells off. induction l as [|dia l IH]; intros cells off.
  - simpl. rewrite app_nil_r. reflexivity.
  - cbn [fold_left].
    destruct (dia_header_step dia_precision y_offset column_width
                row_height font_family font_size (cells, off) dia)
      as [cells' off'] eqn:E.
    unfold dia_header_step in E. injection E as <- <-.
    rewrite IH, flat_map_snoc, texts_of_cell, <- app_assoc. reflexivity.
Qed.

Lemma header_loop_texts (height : Q) (l : headers) (children : list svg)
  (off : Q) :
  flat_map texts_of
    (fst (fold_left
            (header_step diameter_list dia_precision y_offset column_width
               row_height font_family font_size height) l (children, off)))
  = flat_map texts_of children
    ++ flat_map (header_texts diameter_list dia_precision) l.
Proof.
  revert children off. induction l as [|e l IH]; intros children off.
  - simpl. rewrite app_nil_r. reflexivity.
  - cbn [fold_left].
    destruct (header_step diameter_list dia_precision y_offset column_width
                row_height font_family font_size height (children, off) e)
      as [children' off'] eqn:E.
    rewrite IH. cbn [flat_map]. rewrite app_assoc. f_equal.
    unfold header_step in E. unfold header_texts, is_total.
    destruct (String.eqb (fst e) "RebarsTotalLength"); simpl negb in E;
      cbv iota in E.
    + pose proof (dia_header_texts diameter_list [] off) as Hd.
      destruct (fold_left _ diameter_list ([], off)) as [dia_cells off''].
      simpl in Hd. injection E as <- _.
      rewrite flat_map_app. simpl. rewrite app_nil_r, Hd. reflexivity.
    + injection E as <- _. rewrite flat_map_snoc, texts_of_cell.
      reflexivity.
Qed.
End HeaderTexts.

(** X11.  The texts of the header are those of the visible columns, in
    ascending order of their sequence numbers: for each the label, and after
    the label of the total length column one sub-header per diameter.  A
    column of order 0 gives no text. *)
Theorem getColumnHeadersSVG_texts
  (column_headers : headers) (diameter_list : list Q) (dia_precision : Z)
  (y_offset column_width row_height : Q) (font_family : string)
  (font_size : Q) :
  texts_of (getColumnHeadersSVG diameter_list dia_precision y_offset
              column_width row_height font_family font_size column_headers)
  = flat_map (header_texts diameter_list dia_precision)
      (sorted_headers (delete_hidden column_headers))
  /\ StronglySorted (fun a b => (order_of a <= order_of b)%Z)
       (sorted_headers (delete_hidden column_headers))
  /\ (forall x, In x (sorted_headers (delete_hidden column_headers))
                <-> In x column_headers /\ order_of x <> 0%Z).
Proof.
  split; [|split].
  - unfold getColumnHeadersSVG. cbn [texts_of].
    rewrite header_loop_texts. reflexivity.
  - assert (H : StronglySorted
                  (fun a b => (order_of a <=? order_of b)%Z = true)
                  (sorted_headers (delete_hidden column_headers))).
    { apply sort_by_sorted.
      - intros a b. rewrite !Z.leb_le. lia.
      - intros a b c. rewrite !Z.leb_le. lia. }
    induction H as [|x l _ IH Hx]; constructor; [exact IH|].
    apply Forall_forall. intros z Hz. apply Z.leb_le.
    exact (proj1 (Forall_forall _ _) Hx z Hz).
  - intros x. split.
    + intros H. apply (Permutation_in x (sorted_headers_perm _)) in H.
      apply filter_In in H. destruct H as [H1 H2]. split; [exact H1|].
      apply negb_true_iff in H2. apply Z.eqb_neq in H2. exact H2.
    + intros [H1 H2].
      apply (Permutation_in x (Permutation_sym (sorted_headers_perm _))).
      apply filter_In. split; [exact H1|].
      apply negb_true_iff. apply Z.eqb_neq. exact H2.
Qed.

(** ** Totals per diameter *)

Lemma dict_set_get (d : qdict) (k k' v a : Q) :
  qget d k = Some a ->
  qget (dict_set Qeq_bool d k v) k'
  = if Qeq_bool k' k then Some v else qget d k'.
Proof.
  unfold qget. induction d as [|[k0 v0] d IH]; simpl.
  - discriminate.
  - destruct (Qeq_bool k k0) eqn:E; simpl.
    + intros _. apply Qeq_bool_eq in E.
      destruct (Qeq_bool k' k0) eqn:E'.
      * apply Qeq_bool_eq in E'.
        rewrite (Qeq_eq_bool k' k); [reflexivity|].
        rewrite E, E'. reflexivity.
      * apply Qeq_bool_neq in E'.
        destruct (Qeq_bool k' k) eqn:E''; [|reflexivity].
        apply Qeq_bool_eq in E''. exfalso. apply E'.
        rewrite E'', E. reflexivity.
    + intros H. apply Qeq_bool_neq in E.
      destruct (Qeq_bool k' k0) eqn:E'.
      * apply Qeq_bool_eq in E'.
        destruct (Qeq_bool k' k) eqn:E''; [|reflexivity].
        apply Qeq_bool_eq in E''. exfalso. apply E.
        rewrite <- E'', E'. reflexivity.
      * apply IH. exact H.
Qed.

Section TotalsFacts.
Variables (host : Host) (column_headers : headers)
  (column_units : units) (rebar_length_type : string)
  (font_family : string) (font_size : Q) (column_width row_height : Q).
Variables (mark_reinforcements_dict : mark_dict) (diameter_list : list Q).

Lemma makeRows_totals (first_row : Z) (marks : list Z) :
  forall st,
    Qnodup diameter_list ->
    (forall m, In m marks ->
               exists r0 rs,
                 dict_get Z.eqb mark_reinforcements_dict m = Some (r0 :: rs)
                 /\ Qmem (Diameter (BaseRebar r0))
                      (keys (dia_total_length_dict st)) = true) ->
    exists st',
      makeRows host column_headers column_units rebar_length_type
        font_family font_size column_width row_height
        mark_reinforcements_dict diameter_list first_row marks st = Ok st'
      /\ forall dia v0,
           qget (dia_total_length_dict st) dia = Some v0 ->
           exists v,
             qget (dia_total_length_dict st') dia = Some v
             /\ v == v0 + contributions_of_diameter column_headers
                           rebar_length_type mark_reinforcements_dict
                           marks dia.
Proof.
  induction marks as [|m marks IH]; intros st Hn Hm.
  - exists st. split; [reflexivity|]. intros dia v0 Hv. exists v0.
    split; [exact Hv|]. unfold contributions_of_diameter, Qsum. simpl. lra.
  - destruct (Hm m (or_introl eq_refl)) as (r0 & rs & Hget & Hin).
    apply qget_mem in Hin. destruct Hin as [acc Hacc].
    pose proof (makeRow_ok host column_headers column_units
                  rebar_length_type font_family font_size column_width
                  row_height mark_reinforcements_dict diameter_list
                  first_row st m r0 rs acc Hn Hget Hacc) as Hrow.
    simpl makeRows. rewrite Hrow. cbn [rbind].
    match type of Hrow with _ = Ok ?s => set (st1 := s) in * end.
    destruct (IH st1 Hn) as (st' & -> & Htot).
    { intros m' Hin'. destruct (Hm m' (or_intror Hin'))
        as (r' & rs' & Hget' & Hmem').
      exists r', rs'. split; [exact Hget'|].
      subst st1. simpl. rewrite (dict_set_keys _ _ _ _ Hacc). exact Hmem'. }
    exists st'. split; [reflexivity|].
    intros dia v0 Hv.
    assert (H1 : qget (dia_total_length_dict st1) dia
                 = if Qeq_bool dia (Diameter (BaseRebar r0))
                   then Some (acc + row_contribution column_headers
                                      rebar_length_type
                                      mark_reinforcements_dict m)
                   else Some v0).
    { subst st1. simpl. rewrite (dict_set_get _ _ dia _ _ Hacc).
      destruct (Qeq_bool dia (Diameter (BaseRebar r0))); [reflexivity|].
      exact Hv. }
    unfold contributions_of_diameter. simpl filter.
    unfold has_diameter at 1, diameter_of_mark. rewrite Hget.
    rewrite (Qeq_bool_comm (Diameter (BaseRebar r0)) dia).
    destruct (Qeq_bool dia (Diameter (BaseRebar r0))) eqn:E.
    + destruct (Htot dia _ H1) as (v & Hv' & Heq).
      exists v. split; [exact Hv'|]. rewrite Heq.
      unfold contributions_of_diameter. simpl map. rewrite Qsum_cons.
      apply Qeq_bool_eq in E.
      rewrite (qget_Qeq _ _ _ E) in Hv. rewrite Hacc in Hv.
      injection Hv as ->. lra.
    + destruct (Htot dia _ H1) as (v & Hv' & Heq).
      exists v. split; [exact Hv'|]. rewrite Heq.
      unfold contributions_of_diameter. reflexivity.
Qed.
End TotalsFacts.

Section RunFacts.
Variables (host : Host) (column_headers : headers)
  (column_units : units) (rebar_length_type : string)
  (font_family : string) (font_size : Q) (column_width row_height : Q).

(** A run of [makeTable] that completes, with the state in which the loop
    over the marks ends. *)
Lemma makeTable_run :
  (sin column_headers RTL = true ->
   exists unit, sget column_units RTL = Some unit) ->
  let mark_reinforcements_dict :=
    getMarkReinforcementsDict (objects host) in
  exists t diameter_list st first_row y_offset1 footer,
    makeTable host column_headers column_units rebar_length_type
      font_family font_size column_width row_height = Ok t
    /\ getUniqueDiameterList mark_reinforcements_dict = Ok diameter_list
    /\ Qnodup diameter_list
    /\ (first_row, y_offset1)
       = (if sin column_headers RTL
          then (3%Z, 0 + 2 * row_height)
          else (2%Z, 0 + row_height))
    /\ makeRows host column_headers column_units rebar_length_type
         font_family font_size column_width row_height
         mark_reinforcements_dict diameter_list first_row
         (sort_by Z.leb (keys mark_reinforcements_dict))
         {| rows := [];
            dia_total_length_dict := map (fun dia => (dia, 0)) diameter_list;
            y_offset := y_offset1;
            current_row := first_row;
            console := [] |} = Ok st
    /\ makeDataTotal host column_headers column_units font_family font_size
         column_width row_height diameter_list (dia_total_length_dict st)
         (y_offset st + row_height) = Ok footer
    /\ diameters_of t = diameter_list
    /\ totals_of t = dia_total_length_dict st
    /\ printed t = console st
    /\ bom_height t = y_offset st + row_height + 3 * row_height
    /\ bom_width t
       = column_width
         * inject_Z (len column_headers + len diameter_list - 1)
    /\ bom_table_svg t
       = g (Id "BOM_table")
           (getColumnHeadersSVG diameter_list (Decimals host) 0 column_width
              row_height font_family font_size column_headers
            :: rows st
               ++ [getSVGRectangle 0 (y_offset st) (bom_width t) row_height;
                   footer])
    /\ rows st
       = rows_from host column_headers column_units rebar_length_type
           font_family font_size column_width row_height
           mark_reinforcements_dict diameter_list 1 y_offset1
           (sort_by Z.leb (keys mark_reinforcements_dict))
    /\ y_offset st
       == y_offset1
          + inject_Z (len mark_reinforcements_dict) * row_height.
Proof.
  intros Hu mrd. unfold makeTable. fold mrd.
  pose proof (fun dl totals y =>
                makeDataTotal_ok host column_headers column_units
                  font_family font_size column_width row_height dl totals y
                  Hu) as Hfooter.
  clear Hu.
  destruct (sin column_headers RTL) eqn:E;
    [destruct (table_rows_ok host column_headers column_units
                 rebar_length_type font_family font_size column_width
                 row_height 3%Z (0 + 2 * row_height))
       as (dl & st & Hdl & Hn & Hrun & Hf & Hk & Hy & Hs)
    |destruct (table_rows_ok host column_headers column_units
                 rebar_length_type font_family font_size column_width
                 row_height 2%Z (0 + row_height))
       as (dl & st & Hdl & Hn & Hrun & Hf & Hk & Hy & Hs)];
    fold mrd in Hdl, Hrun;
    rewrite Hdl; cbn [rbind]; rewrite Hrun; cbn [rbind];
    (destruct (Hfooter dl (dia_total_length_dict st)
                 (y_offset st + row_height)) as [children Hc];
     [intros dia Hin; apply qget_of_keys; rewrite Hk; exact Hin|]);
    rewrite Hc; cbn [rbind];
    rewrite (init_totals_shape dl []) in Hrun by exact Hn;
    simpl app in Hrun;
    eexists; exists dl, st; do 2 eexists;
    exists (g (Id "BOM_data_total") children);
    (split; [reflexivity|]); cbn;
    repeat split; try assumption; try reflexivity.
Qed.
End RunFacts.

(** X12.  In a run that completes, the total kept for each diameter of the
    list is the sum of the contributions of the rows of the marks whose
    first reinforcement has that diameter: nothing is counted under another
    diameter. *)
Theorem totals_per_diameter
  (host : Host) (column_headers : headers) (column_units : units)
  (rebar_length_type font_family : string)
  (font_size column_width row_height : Q) :
  (sin column_headers RTL = true -> sin column_units RTL = true) ->
  let mark_reinforcements_dict := getMarkReinforcementsDict (objects host) in
  exists t,
    makeTable host column_headers column_units rebar_length_type
      font_family font_size column_width row_height = Ok t
    /\ forall dia,
         In dia (diameters_of t) ->
         exists total,
           qget (totals_of t) dia = Some total
           /\ total
              == contributions_of_diameter column_headers rebar_length_type
                   mark_reinforcements_dict
                   (sort_by Z.leb (keys mark_reinforcements_dict)) dia.
Proof.
  intros Hu mrd.
  destruct (makeTable_run host column_headers column_units rebar_length_type
              font_family font_size column_width row_height)
    as (t & dl & st & first_row & y1 & footer & Ht & Hdl & Hn & _ & Hrun
        & _ & Hd & Htot & _).
  { intros H. apply sin_true_iff. apply Hu. exact H. }
  fold mrd in Hdl, Hrun.
  exists t. split; [exact Ht|]. intros dia Hin. rewrite Hd in Hin.
  destruct (getMarkReinforcementsDict_groups (objects host))
    as (_ & Hg & _).
  fold mrd in Hg.
  destruct (getUniqueDiameterList_ok mrd Hg) as (dl' & Hdl' & _ & Hmem).
  rewrite Hdl in Hdl'. injection Hdl' as <-.
  destruct (makeRows_totals host column_headers column_units
              rebar_length_type font_family font_size column_width
              row_height mrd dl first_row (sort_by Z.leb (keys mrd))
              {| rows := [];
                 dia_total_length_dict := map (fun dia => (dia, 0)) dl;
                 y_offset := y1;
                 current_row := first_row;
                 console := [] |} Hn) as (st' & Hrun' & Hall).
  { intros m Hm. simpl dia_total_length_dict. rewrite keys_init.
    assert (Hin' : In m (keys mrd)).
    { eapply Permutation_in; [apply sort_by_perm|exact Hm]. }
    destruct (mark_dict_lookup mrd m Hg Hin') as (r & rs & Hget & Hin'').
    exists r, rs. split; [exact Hget|]. eapply Hmem. exact Hin''. }
  rewrite Hrun in Hrun'. injection Hrun' as <-.
  simpl dia_total_length_dict in Hall.
  destruct (Hall dia 0) as (v & Hv & Heq).
  { destruct (qget_of_keys (map (fun dia => (dia, 0)) dl) dia) as [v Hv].
    { rewrite keys_init. exact Hin. }
    rewrite Hv. f_equal.
    clear - Hv. unfold qget in Hv. induction dl as [|x dl IH]; simpl in Hv.
    - discriminate.
    - destruct (Qeq_bool dia x); [congruence|]. apply IH. exact Hv. }
  exists v. rewrite Htot. split; [exact Hv|]. rewrite Heq. lra.
Qed.

Lemma totals_per_diameter_witness :
  exists t total,
    makeTable scenario_host scenario_headers scenario_units "RealLength"
      "DejaVu Sans" 3 10 5 = Ok t
    /\ qget (totals_of t) 10 = Some total
    /\ total == 1500.
Proof.
  destruct (totals_per_diameter scenario_host scenario_headers
              scenario_units "RealLength"%string "DejaVu Sans"%string
              3 10 5) as (t & Ht & Hall).
  - reflexivity.
  - destruct (Hall 10) as (total & Hget & Heq).
    + pose proof Ht as Ht'. vm_compute in Ht'. injection Ht' as <-.
      right. left. reflexivity.
    + exists t, total. split; [exact Ht|]. split; [exact Hget|].
      rewrite Heq. vm_compute. reflexivity.
Defined.
(** ** Rows: number, identifiers and order *)

Section RowsFrom.
Variables (host : Host) (column_headers : headers)
  (column_units : units) (rebar_length_type : string)
  (font_family : string) (font_size : Q) (column_width row_height : Q).
Variables (mark_reinforcements_dict : mark_dict) (diameter_list : list Q).

(** The [i]-th of the rows drawn from [n] and [y] is the row of the [i]-th
    mark, numbered [n + i] and drawn [i] row heights below [y]. *)
Lemma rows_from_nth (marks : list Z) :
  forall (n : Z) (y : Q) (i : nat) (m : Z),
    nth_error marks i = Some m ->
    exists y',
      nth_error
        (rows_from host column_headers column_units rebar_length_type
           font_family font_size column_width row_height
           mark_reinforcements_dict diameter_list n y marks) i
      = Some (row_at host column_headers column_units rebar_length_type
                font_family font_size column_width row_height
                mark_reinforcements_dict diameter_list
                (n + Z.of_nat i) y' m)
      /\ y' == y + inject_Z (Z.of_nat i) * row_height.
Proof.
  induction marks as [|m0 marks IH]; intros n y i m H.
  - destruct i; discriminate H.
  - destruct i as [|i].
    + injection H as <-. exists y. split.
      * cbn [rows_from nth_error Z.of_nat]. rewrite Z.add_0_r. reflexivity.
      * change (inject_Z (Z.of_nat 0)) with 0. lra.
    + cbn [nth_error] in H.
      destruct (IH (n + 1)%Z (y + row_height) i m H) as (y' & Hrow & Hy).
      exists y'. split.
      * cbn [rows_from nth_error]. rewrite Hrow.
        replace (n + 1 + Z.of_nat i)%Z with (n + Z.of_nat (S i))%Z by lia.
        reflexivity.
      * rewrite Hy, Nat2Z.inj_succ. unfold Z.succ.
        rewrite inject_Z_plus. change (inject_Z 1) with 1. lra.
Qed.

End RowsFrom.

Lemma sorted_NoDup_strict (l : list Z) :
  StronglySorted (fun a b => (a <=? b)%Z = true) l -> NoDup l ->
  StronglySorted Z.lt l.
Proof.
  induction 1 as [|x l _ IH Hx]; intros Hn.
  - constructor.
  - inversion Hn as [|? ? Hnot Hl]; subst.
    constructor; [apply IH; exact Hl|].
    apply Forall_forall. intros y Hy.
    pose proof (proj1 (Forall_forall _ _) Hx y Hy) as Hle.
    apply Z.leb_le in Hle.
    assert (x <> y) by (intros ->; contradiction). lia.
Qed.



(** ** A document without reinforcing bars *)

Lemma no_marks_empty_dict (objects_list : list DocObject) :
  marks_of objects_list = [] -> getMarkReinforcementsDict objects_list = [].
Proof.
  intros H.
  destruct (getMarkReinforcementsDict_groups objects_list)
    as (_ & _ & Hk & _).
  destruct (getMarkReinforcementsDict objects_list) as [|[k l] d];
    [reflexivity|].
  exfalso. rewrite H in Hk. apply (Hk k). left. reflexivity.
Qed.

Lemma remaining_columns_no_text (column_headers : headers)
  (column_width row_height : Q) (diameter_list : list Q) (total_seq : Z)
  (y : Q) :
  flat_map texts_of
    (remaining_columns column_headers column_width row_height diameter_list
       total_seq y) = [].
Proof.
  unfold remaining_columns.
  induction (range (len column_headers - total_seq)) as [|c l IH].
  - reflexivity.
  - cbn [flat_map]. rewrite flat_map_app, IH, app_nil_r. reflexivity.
Qed.

(** X14.  When the document has no reinforcing bar, a run that completes has
    no body row and no diameter: the table is the header, the closing
    rectangle right under the header band and the totals, whose only texts
    are the three captions when the total length column is configured. *)
Theorem table_without_marks
  (host : Host) (column_headers : headers) (column_units : units)
  (rebar_length_type font_family : string)
  (font_size column_width row_height : Q) :
  marks_of (objects host) = [] ->
  (sin column_headers RTL = true -> sin column_units RTL = true) ->
  exists t footer,
    makeTable host column_headers column_units rebar_length_type
      font_family font_size column_width row_height = Ok t
    /\ diameters_of t = []
    /\ bom_table_svg t
       = g (Id "BOM_table")
           [ getColumnHeadersSVG [] (Decimals host) 0 column_width
               row_height font_family font_size column_headers;
             getSVGRectangle 0
               (if sin column_headers RTL
                then 0 + 2 * row_height else 0 + row_height)
               (column_width * inject_Z (len column_headers - 1))
               row_height;
             footer ]
    /\ texts_of footer
       = (if sin column_headers RTL then caption_texts column_units else []).
Proof.
  intros Hm Hu.
  destruct (makeTable_run host column_headers column_units rebar_length_type
              font_family font_size column_width row_height)
    as (t & dl & st & first_row & y1 & footer & Ht & Hdl & _ & Hfy & Hrun
        & Hfooter & Hd & _ & _ & _ & Hw & Hsvg & _).
  { intros H. apply sin_true_iff. apply Hu. exact H. }
  rewrite (no_marks_empty_dict _ Hm) in Hdl, Hrun.
  injection Hdl as <-. simpl in Hrun. injection Hrun as <-.
  change (sort_by Qle_bool (@nil Q)) with (@nil Q) in *.
  simpl in Hfooter, Hsvg, Hw.
  exists t, footer. split; [exact Ht|]. split; [exact Hd|]. split.
  - rewrite Hsvg, Hw. simpl app.
    replace (len column_headers + len (@nil Q) - 1)%Z
      with (len column_headers - 1)%Z by (unfold len; simpl; lia).
    destruct (sin column_headers RTL); injection Hfy as _ ->; reflexivity.
  - clear Hsvg Hw Ht Hd Hfy.
    unfold makeDataTotal, captions, enumerate in Hfooter.
    unfold sin, dict_in. fold (sget column_headers RTL).
    unfold caption_texts.
    destruct (sget column_headers RTL) as [[label total_seq]|] eqn:E;
      [destruct (negb (total_seq =? 1)%Z);
       [destruct (getColumnOffset column_headers [] RTL column_width)
          as [off|e]; [|discriminate]|];
       (destruct (sget column_units RTL) as [unit|]; [|discriminate])|];
      cbv beta iota delta [rbind mapM combine seq List.length List.concat
                             app] in Hfooter;
      injection Hfooter as <-; cbn [texts_of flat_map];
      rewrite ?texts_of_cell, ?remaining_columns_no_text; reflexivity.
Qed.

Lemma table_without_marks_witness :
  exists t,
    makeTable (sample_host [] [] true true) scenario_headers scenario_units
      "RealLength" "DejaVu Sans" 3 10 5 = Ok t
    /\ diameters_of t = [].
Proof.
  destruct (table_without_marks (sample_host [] [] true true)
              scenario_headers scenario_units "RealLength"%string
              "DejaVu Sans"%string 3 10 5) as (t & footer & Ht & Hd & _).
  - reflexivity.
  - reflexivity.
  - exists t. split; assumption.
Defined.

(** ** A table without the total length column *)


(** ** The run as a whole *)

Section Console.
Variables (host : Host) (column_headers : headers)
  (column_units : units) (rebar_length_type : string)
  (font_family : string) (font_size : Q) (column_width row_height : Q).
Variables (mark_reinforcements_dict : mark_dict) (diameter_list : list Q).

Lemma makeRow_console (first_row : Z) (st st' : loop_state) (m : Z) :
  makeRow host column_headers column_units rebar_length_type font_family
    font_size column_width row_height mark_reinforcements_dict diameter_list
    first_row st m = Ok st' ->
  console st'
  = console st
    ++ row_messages column_headers rebar_length_type
         mark_reinforcements_dict [m].
Proof.
  intros H. unfold row_messages. cbn [flat_map]. rewrite app_nil_r.
  unfold makeRow, rbind, first in H.
  destruct (dict_get Z.eqb mark_reinforcements_dict m) as [[|r0 rs]|];
    try discriminate H.
  repeat match type of H with
         | context [match ?x with _ => _ end] =>
             destruct x eqn:?; try discriminate H
         end.
  injection H as <-. reflexivity.
Qed.

Lemma makeRows_console (first_row : Z) (marks : list Z) :
  forall st st',
    makeRows host column_headers column_units rebar_length_type font_family
      font_size column_width row_height mark_reinforcements_dict
      diameter_list first_row marks st = Ok st' ->
    console st'
    = console st
      ++ row_messages column_headers rebar_length_type
           mark_reinforcements_dict marks
    /\ printed_by_rows host column_headers column_units rebar_length_type
         font_family font_size column_width row_height
         mark_reinforcements_dict diameter_list first_row marks st
       = console st'.
Proof.
  induction marks as [|m marks IH]; intros st st' H.
  - simpl in H. injection H as <-. split; [|reflexivity].
    unfold row_messages. simpl. rewrite app_nil_r. reflexivity.
  - cbn [makeRows printed_by_rows] in H |- *.
    destruct (makeRow host column_headers column_units rebar_length_type
                font_family font_size column_width row_height
                mark_reinforcements_dict diameter_list first_row st m)
      as [st1|e] eqn:E; [|discriminate H].
    cbn [rbind] in H. destruct (IH st1 st' H) as [Hc Hp].
    split; [|exact Hp].
    rewrite Hc, (makeRow_console first_row st st1 m E), <- app_assoc.
    unfold row_messages. cbn [flat_map]. rewrite app_nil_r. reflexivity.
Qed.
End Console.

Section Run.
Variables (host : Host) (column_headers : headers) (column_units : units)
  (rebar_length_type font_family : string)
  (font_size column_width row_height : Q)
  (bom_left_offset bom_top_offset bom_min_right_offset
     bom_min_bottom_offset : Q)
  (bom_table_svg_max_width bom_table_svg_max_height : option Q)
  (template_file : string) (output_file : option string).

Local Abbreviation run :=
  (makeBillOfMaterialSVG host column_headers column_units rebar_length_type
     font_family font_size column_width row_height bom_left_offset
     bom_top_offset bom_min_right_offset bom_min_bottom_offset
     bom_table_svg_max_width bom_table_svg_max_height template_file
     output_file).

Local Abbreviation table_of_run :=
  (makeTable host column_headers column_units rebar_length_type font_family
     font_size column_width row_height).

Local Abbreviation factor t :=
  (getBOMScalingFactor (bom_width t) (bom_height t) bom_left_offset
     bom_top_offset (fst (template_size host template_file))
     (snd (template_size host template_file)) bom_min_right_offset
     bom_min_bottom_offset bom_table_svg_max_width
     bom_table_svg_max_height).

Local Abbreviation messages :=
  (row_messages column_headers rebar_length_type
     (getMarkReinforcementsDict (objects host))
     (sort_by Z.leb (keys (getMarkReinforcementsDict (objects host))))).

(** The scaling factor raises nothing but the [ZeroDivisionError] of a
    table without width or height. *)
Lemma scaling_raises (bw bh lo to tw th ro bo : Q) (mw mh : option Q)
  (e : exn) :
  getBOMScalingFactor bw bh lo to tw th ro bo mw mh = Raise e ->
  e = ZeroDivisionError /\ (bw == 0 \/ bh == 0).
Proof.
  unfold getBOMScalingFactor, truediv.
  destruct (scale_flag bw bh lo to tw th ro bo mw mh); simpl;
    [|discriminate].
  (destruct (Qeq_bool bw 0) eqn:Ew;
   [apply Qeq_bool_eq in Ew|apply Qeq_bool_neq in Ew]);
    (destruct (Qeq_bool bh 0) eqn:Eh;
     [apply Qeq_bool_eq in Eh|apply Qeq_bool_neq in Eh]);
    destruct mw as [m|]; destruct mh as [m'|]; simpl;
    try destruct (Qeq_bool m 0); try destruct (Qeq_bool m' 0); simpl;
    intros H; try discriminate H; injection H as <-; auto.
Qed.

(** The table is drawn unless the unit of the total length column is
    missing. *)
Lemma makeTable_cases :
  (exists t, table_of_run = Ok t)
  \/ (sin column_headers RTL = true /\ sget column_units RTL = None
      /\ table_of_run = Raise (KeyError (KStr RTL))).
Proof.
  destruct (sin column_headers RTL) eqn:Hh;
    [destruct (sget column_units RTL) as [unit|] eqn:Hu|].
  - left.
    destruct (makeTable_run host column_headers column_units
                rebar_length_type font_family font_size column_width
                row_height) as (t & _ & _ & _ & _ & _ & Ht & _).
    + intros _. exists unit. exact Hu.
    + exists t. exact Ht.
  - right. repeat split.
    apply makeTable_KeyError; assumption.
  - left.
    destruct (makeTable_run host column_headers column_units
                rebar_length_type font_family font_size column_width
                row_height) as (t & _ & _ & _ & _ & _ & Ht & _).
    + rewrite Hh. discriminate.
    + exists t. exact Ht.
Qed.

(** Whether the table is complete or raises, it has printed the messages of
    its rows. *)
Lemma table_messages :
  printed_by_table host column_headers column_units rebar_length_type
    font_family font_size column_width row_height = messages
  /\ forall t, table_of_run = Ok t -> printed t = messages.
Proof.
  unfold printed_by_table, makeTable.
  destruct (sin column_headers RTL) eqn:Hh;
    [destruct (table_rows_ok host column_headers column_units
                 rebar_length_type font_family font_size column_width
                 row_height 3%Z (0 + 2 * row_height))
       as (dl & st & Hdl & _ & Hrun & _)
    |destruct (table_rows_ok host column_headers column_units
                 rebar_length_type font_family font_size column_width
                 row_height 2%Z (0 + row_height))
       as (dl & st & Hdl & _ & Hrun & _)];
    rewrite Hdl; cbn [rbind]; rewrite Hrun; cbn [rbind];
    destruct (makeRows_console _ _ _ _ _ _ _ _ _ _ _ _ _ _ Hrun)
      as [Hc Hp];
    cbn [console app] in Hc;
    (split; [rewrite Hp; exact Hc|]);
    intros t H;
    destruct (makeDataTotal host column_headers column_units font_family
                font_size column_width row_height dl
                (dia_total_length_dict st) (y_offset st + row_height));
    cbn [rbind] in H; try discriminate H; injection H as <-; exact Hc.
Qed.

(** A run whose table, serialisation and factor succeed: its value and its
    effects, case by case of the output file. *)
Lemma run_after_factor (t : table) (f : Q) :
  table_of_run = Ok t -> parses (bom_table_svg t) = true ->
  factor t = Ok f ->
  exists c before,
    before
    = map PrintError messages ++ [SetContent c]
      ++ template_report host template_file
    /\ (Symbol c = Document (root t) /\ Scale c = f
        /\ Width c = bom_width t /\ Height c = bom_height t
        /\ X c = bom_width t * f / 2 + bom_left_offset
        /\ Y c = snd (template_size host template_file)
                 - bom_height t * f / 2 - bom_top_offset)
    /\ run
       = match output_file with
         | Some path =>
             if nonempty path then
               if open_for_writing host path then
                 (Ok (Document (root t)),
                  before
                  ++ [OpenFile path;
                      if write_succeeds host path
                      then WriteFile path
                             (sheet_of host template_file bom_left_offset
                                bom_top_offset f (bom_table_svg t))
                      else PrintError ("Error writing svg to file "
                                       ++ str_of_file host path ++ nl);
                      Recompute])
               else (Raise (UnboundLocalError "svg_output_file"), before)
             else (Ok (Document (root t)), before ++ [Recompute])
         | None => (Ok (Document (root t)), before ++ [Recompute])
         end.
Proof.
  intros Et Ep Ef.
  rewrite <- (proj2 table_messages t Et).
  unfold makeBillOfMaterialSVG, write_sheet, sheet_of, template_report.
  rewrite Et, Ep. cbn [negb].
  destruct (template_size host template_file)
    as [template_width template_height].
  cbn [fst snd] in Ef |- *. rewrite Ef.
  exists {| Symbol := Document (root t);
            Font := font_family;
            FontSize := font_size;
            Width := bom_width t;
            Height := bom_height t;
            LeftOffset := bom_left_offset;
            TopOffset := bom_top_offset;
            MinRightOffset := bom_min_right_offset;
            MinBottomOffset := bom_min_bottom_offset;
            MaxWidth := bom_table_svg_max_width;
            MaxHeight := bom_table_svg_max_height;
            X := bom_width t * f / 2 + bom_left_offset;
            Y := template_height - bom_height t * f / 2 - bom_top_offset;
            Scale := f |}.
  eexists. split; [reflexivity|].
  split; [cbn; repeat split; reflexivity|].
  destruct (read_file host template_file) as [template_svg|];
    (destruct output_file as [out|];
     [destruct (nonempty out);
      [destruct (open_for_writing host out);
       [destruct (write_succeeds host out)|]|]|]);
    cbn [fst snd negb]; rewrite <- ?app_assoc; cbn [app];
    rewrite ?app_nil_r; reflexivity.
Qed.

Lemma not_in_prints (ev : event) (messages : list string) :
  (forall s, ev <> PrintError s) -> ~ In ev (map PrintError messages).
Proof.
  intros H Hin. apply in_map_iff in Hin. destruct Hin as (s & Hs & _).
  exact (H s (eq_sym Hs)).
Qed.

(** The three ways in which a run stops before the factor is known. *)
Lemma run_before_factor :
  (exists t f,
      table_of_run = Ok t /\ parses (bom_table_svg t) = true
      /\ factor t = Ok f)
  \/ (exists e,
         run = (Raise e, map PrintError messages)
         /\ ((e = KeyError (KStr RTL) /\ sin column_headers RTL = true
              /\ sget column_units RTL = None)
             \/ (e = ExpatError
                 /\ exists t,
                      table_of_run = Ok t
                      /\ parses (bom_table_svg t) = false)
             \/ (e = ZeroDivisionError
                 /\ exists t,
                      table_of_run = Ok t
                      /\ parses (bom_table_svg t) = true
                      /\ factor t = Raise ZeroDivisionError
                      /\ (bom_width t == 0 \/ bom_height t == 0)))).
Proof.
  destruct table_messages as [Hraise Hok].
  destruct makeTable_cases as [[t Et]|(Hh & Hu & Et)].
  2:{ right. eexists. split.
      - unfold makeBillOfMaterialSVG. rewrite Et, Hraise. reflexivity.
      - left. auto. }
  specialize (Hok t Et).
  destruct (parses (bom_table_svg t)) eqn:Ep.
  2:{ right. eexists. split.
      - unfold makeBillOfMaterialSVG. rewrite Et, Ep, Hok. reflexivity.
      - right. left. split; [reflexivity|]. exists t. auto. }
  destruct (factor t) as [f|e] eqn:Ef.
  - left. exists t, f. auto.
  - right. destruct (scaling_raises _ _ _ _ _ _ _ _ _ _ _ Ef) as [-> Hz].
    eexists. split.
    + unfold makeBillOfMaterialSVG. rewrite Et, Ep, Hok. cbn [negb].
      destruct (template_size host template_file) as [tw th].
      cbn [fst snd] in Ef. rewrite Ef. reflexivity.
    + right. right. split; [reflexivity|]. exists t. auto.
Qed.

Ltac split_trace H :=
  repeat (apply in_app_or in H; destruct H as [H|H]);
  try (apply in_map_iff in H; destruct H as (? & H & _); discriminate H);
  repeat match type of H with
         | context [match ?x with _ => _ end] => destruct x
         end;
  repeat (destruct H as [H|H]; try discriminate H);
  try contradiction.



End Run.




(** ** The range of the factor *)


